(** * A shallow embedding of [assert/assert.py]

    The Python module is embedded over an explicit object store: every
    Python reference is a location, every location holds an object, and
    the operator [is] compares locations.  Recursive traversals of the
    store ([==] on containers, [is_deep_equal]) take a fuel argument
    that bounds the nesting depth; the theorems on acyclic stores show
    that enough fuel always exists.  Exceptions are modelled by an
    outcome type with a [Raise] constructor.

    Scope.  The objects are [None], booleans, integers, floats (IEEE
    754 binary64, as [spec_float]), text, bytes, lists, tuples, sets,
    mappings with text keys (kept in insertion order) and plain
    instances, which carry a [__dict__], inherit [object.__eq__] and
    have the attributes their [__dict__] holds.
    The interpreter's recursion limit is not modelled.  A callable is
    given by what calling it does, a compiled regular expression by
    what its [search] finds, and the interpreter's [str] and [repr] are
    parameters of [stringify].  The capture of the stack in
    [AssertError.__init__] is left out.

    The functions are modelled as they are written.  The class
    [Assert] that closes the module (lines 336-354) is left out: its
    body binds the reserved word [assert] ([assert = assert_], line
    338), which the interpreter refuses as a syntax error. *)

From Stdlib Require Import ZArith List String Bool Lia Arith PeanoNat.
From Stdlib Require Import Permutation Ascii.
From Stdlib Require Import Floats.SpecFloat DecimalString.
Import ListNotations.

Local Open Scope string_scope.

(** ** Classes and exception objects *)

(** The exception classes that occur in the module or in its
    environment, and classes declared by the caller. *)
Inductive cls : Type :=
| BaseException
| Exception
| KeyboardInterrupt
| SystemExit
| ArithmeticError
| ZeroDivisionError
| LookupError
| KeyError
| TypeError
| ValueError
| AssertionError      (* the interpreter's builtin class *)
| AssertError         (* [class AssertError(Exception)], assert.py line 8 *)
| UserClass (name : string) (base : cls).

Definition cls_eq_dec (c d : cls) : {c = d} + {c <> d}.
Proof. decide equality. apply string_dec. Defined.

Definition cls_eqb (c d : cls) : bool := if cls_eq_dec c d then true else false.

(** Method resolution order (single inheritance): the class itself
    followed by its ancestors below [object]. *)
Fixpoint mro (c : cls) : list cls :=
  match c with
  | BaseException => [BaseException]
  | Exception => [Exception; BaseException]
  | KeyboardInterrupt => [KeyboardInterrupt; BaseException]
  | SystemExit => [SystemExit; BaseException]
  | ArithmeticError => [ArithmeticError; Exception; BaseException]
  | ZeroDivisionError =>
      [ZeroDivisionError; ArithmeticError; Exception; BaseException]
  | LookupError => [LookupError; Exception; BaseException]
  | KeyError => [KeyError; LookupError; Exception; BaseException]
  | TypeError => [TypeError; Exception; BaseException]
  | ValueError => [ValueError; Exception; BaseException]
  | AssertionError => [AssertionError; Exception; BaseException]
  | AssertError => [AssertError; Exception; BaseException]
  | UserClass _ base => c :: mro base
  end.

Definition issubclass (c d : cls) : bool := existsb (cls_eqb d) (mro c).

Definition loc := nat.

(** An exception instance: its class, the text [str(e)] gives for it,
    and the attributes [hasattr]/[getattr] find on it. *)
Record exn : Type := mkExn {
  exn_cls : cls;
  exn_str : string;
  exn_attrs : list (string * loc)
}.

Definition isinstance_exn (e : exn) (c : cls) : bool := issubclass (exn_cls e) c.

(** ** Outcomes of a call *)

Inductive outcome (A : Type) : Type :=
| Ret (a : A)
| Raise (e : exn)
| OutOfFuel.

Arguments Ret {A} a.
Arguments Raise {A} e.
Arguments OutOfFuel {A}.

Definition bind {A B : Type} (m : outcome A) (k : A -> outcome B) : outcome B :=
  match m with
  | Ret a => k a
  | Raise e => Raise e
  | OutOfFuel => OutOfFuel
  end.

Notation "x <- m ;; k" := (bind m (fun x => k))
  (at level 61, m at next level, right associativity).

(** Errors the interpreter itself raises. *)
Definition zero_division (msg : string) : exn := mkExn ZeroDivisionError msg [].
Definition type_error (msg : string) : exn := mkExn TypeError msg [].
Definition key_error (k : string) : exn := mkExn KeyError k [].

(** ** Objects and the store *)

Inductive pyobj : Type :=
| ONone
| OBool (b : bool)
| OInt (z : Z)
| OFloat (f : spec_float)
| OStr (s : string)
| OBytes (bs : list Byte.byte)
| OList (items : list loc)
| OTuple (items : list loc)
| ODict (entries : list (string * loc))   (* insertion order, string keys *)
| OSet (elems : list loc)
| OInst (class_name : string) (dict : loc). (* plain instance with a [__dict__] *)

Definition heap := loc -> pyobj.

Inductive pytype : Type :=
| TNone | TBool | TInt | TFloat | TStr | TBytes | TList | TTuple | TDict | TSet
| TInst (class_name : string).

Definition pytype_eq_dec (s t : pytype) : {s = t} + {s <> t}.
Proof. decide equality. apply string_dec. Defined.

Definition pytype_eqb (s t : pytype) : bool :=
  if pytype_eq_dec s t then true else false.

Definition type_of (o : pyobj) : pytype :=
  match o with
  | ONone => TNone
  | OBool _ => TBool
  | OInt _ => TInt
  | OFloat _ => TFloat
  | OStr _ => TStr
  | OBytes _ => TBytes
  | OList _ => TList
  | OTuple _ => TTuple
  | ODict _ => TDict
  | OSet _ => TSet
  | OInst c _ => TInst c
  end.

(** References held by an object. *)
Definition children (o : pyobj) : list loc :=
  match o with
  | OList xs | OTuple xs | OSet xs => xs
  | ODict kvs => map snd kvs
  | OInst _ d => [d]
  | _ => []
  end.

(** ** Numbers *)

Definition float_zero : spec_float := S754_zero false.
Definition float_neg_zero : spec_float := S754_zero true.
Definition float_one : spec_float := S754_finite false 4503599627370496 (-52).

Definition isnan (f : spec_float) : bool :=
  match f with S754_nan => true | _ => false end.

(** The numeric tower as [==] sees it: [bool] is a subclass of [int]. *)
Inductive num : Type :=
| NInt (z : Z)
| NFloat (f : spec_float).

Definition to_num (o : pyobj) : option num :=
  match o with
  | OBool b => Some (NInt (if b then 1 else 0))
  | OInt z => Some (NInt z)
  | OFloat f => Some (NFloat f)
  | _ => None
  end.

(** [int == float] compares the exact values. *)
Definition int_float_eqb (z : Z) (f : spec_float) : bool :=
  match f with
  | S754_zero _ => (z =? 0)%Z
  | S754_finite s m e =>
      let sm := if s then Z.neg m else Z.pos m in
      if (0 <=? e)%Z then (z =? sm * 2 ^ e)%Z
      else (z * 2 ^ (- e) =? sm)%Z
  | _ => false
  end.

Definition num_eqb (x y : num) : bool :=
  match x, y with
  | NInt a, NInt b => (a =? b)%Z
  | NFloat f, NFloat g => SFeqb f g
  | NInt a, NFloat g => int_float_eqb a g
  | NFloat f, NInt b => int_float_eqb b f
  end.

(** [o == z] for an [int] literal [z]. *)
Definition eq_int_literal (o : pyobj) (z : Z) : bool :=
  match to_num o with
  | Some x => num_eqb x (NInt z)
  | None => false
  end.

(** [1/o > 0].  True division by a zero of any numeric type raises
    [ZeroDivisionError]; a quotient too small for a double is [0.0]. *)
Definition one_over_is_positive (o : pyobj) : outcome bool :=
  match o with
  | OBool false => Raise (zero_division "division by zero")
  | OBool true => Ret true
  | OInt z =>
      if (z =? 0)%Z then Raise (zero_division "division by zero")
      else Ret ((0 <? z)%Z && (z <? 2 ^ 1075)%Z)
  | OFloat f =>
      if SFeqb f float_zero then Raise (zero_division "float division by zero")
      else Ret (SFltb float_zero (SFdiv 53 1024 float_one f))
  | _ => Raise (type_error "unsupported operand type(s) for /")
  end.

(** ** Identity and native equality *)

Section Store.

Variable h : heap.

(** [a is b].  [None], [True] and [False] are singletons, so two
    references to one of them are always identical. *)
Definition py_is (a b : loc) : bool :=
  Nat.eqb a b ||
  match h a, h b with
  | ONone, ONone => true
  | OBool x, OBool y => Bool.eqb x y
  | _, _ => false
  end.

(** Short-circuit conjunction over two sequences walked in step, as
    [all(f(x, y) for x, y in zip(xs, ys))]. *)
Fixpoint all_zip (f : loc -> loc -> outcome bool) (xs ys : list loc)
  : outcome bool :=
  match xs, ys with
  | x :: xs', y :: ys' =>
      r <- f x y ;; if r then all_zip f xs' ys' else Ret false
  | _, _ => Ret true
  end.

Fixpoint lookup (k : string) (kvs : list (string * loc)) : option loc :=
  match kvs with
  | [] => None
  | (k', v) :: rest => if String.eqb k k' then Some v else lookup k rest
  end.

Definition keys (kvs : list (string * loc)) : list string := map fst kvs.

Definition has_key (kvs : list (string * loc)) (k : string) : bool :=
  match lookup k kvs with Some _ => true | None => false end.

(** [dict.__eq__]: equal sizes, and every entry of the left operand
    has a counterpart under the same key in the right one. *)
Fixpoint dict_entries_eq (f : loc -> loc -> outcome bool)
    (kvs other : list (string * loc)) : outcome bool :=
  match kvs with
  | [] => Ret true
  | (k, v) :: rest =>
      match lookup k other with
      | None => Ret false
      | Some w =>
          r <- f v w ;; if r then dict_entries_eq f rest other else Ret false
      end
  end.

(** Membership of [x] among [ys], as the table probe of a set does it. *)
Fixpoint contains (f : loc -> loc -> outcome bool) (x : loc) (ys : list loc)
  : outcome bool :=
  match ys with
  | [] => Ret false
  | y :: ys' => r <- f x y ;; if r then Ret true else contains f x ys'
  end.

Fixpoint subset (f : loc -> loc -> outcome bool) (xs ys : list loc)
  : outcome bool :=
  match xs with
  | [] => Ret true
  | x :: xs' =>
      r <- contains f x ys ;; if r then subset f xs' ys else Ret false
  end.

Definition bytes_eqb (s t : list Byte.byte) : bool :=
  if list_eq_dec Byte.byte_eq_dec s t then true else false.

(** The comparison of two items inside [==] on containers: identical
    items are equal without being compared ([PyObject_RichCompareBool]). *)
Definition item_of (rec : loc -> loc -> outcome bool) (x y : loc)
  : outcome bool :=
  if py_is x y then Ret true else rec x y.

(** One level of [a == b] on the objects of the model, with the
    comparison of nested items left to [rec].  Plain instances inherit
    [object.__eq__], which is identity. *)
Definition py_eq_step (rec : loc -> loc -> outcome bool) (a b : loc)
  : outcome bool :=
  let item := item_of rec in
  match h a, h b with
  | ONone, ONone => Ret true
  | OStr s, OStr t => Ret (String.eqb s t)
  | OBytes s, OBytes t => Ret (bytes_eqb s t)
  | OList xs, OList ys
  | OTuple xs, OTuple ys =>
      if Nat.eqb (List.length xs) (List.length ys) then all_zip item xs ys
      else Ret false
  | ODict kvs, ODict other =>
      if Nat.eqb (List.length kvs) (List.length other)
      then dict_entries_eq item kvs other
      else Ret false
  | OSet xs, OSet ys =>
      if Nat.eqb (List.length xs) (List.length ys) then subset item xs ys
      else Ret false
  | OInst _ _, OInst _ _ => Ret (py_is a b)
  | oa, ob =>
      match to_num oa, to_num ob with
      | Some x, Some y => Ret (num_eqb x y)
      | _, _ => Ret false
      end
  end.

(** [a == b], to nesting depth [fuel]. *)
Fixpoint py_eq (fuel : nat) (a b : loc) : outcome bool :=
  match fuel with
  | O => OutOfFuel
  | S n => py_eq_step (py_eq n) a b
  end.

(** ** [object_is] (assert.py lines 218-231) *)

Definition is_float (o : pyobj) : bool :=
  match o with OFloat _ => true | _ => false end.

Definition float_isnan (o : pyobj) : bool :=
  match o with OFloat f => isnan f | _ => false end.

Definition object_is (fuel : nat) (a b : loc) : outcome bool :=
  if py_is a b then Ret true
  else if is_float (h a) && is_float (h b)
          && float_isnan (h a) && float_isnan (h b)
  then Ret true
  else if eq_int_literal (h a) 0 && eq_int_literal (h b) 0 then
    pa <- one_over_is_positive (h a) ;;
    pb <- one_over_is_positive (h b) ;;
    if negb (Bool.eqb pa pb) then Ret false else py_eq fuel a b
  else py_eq fuel a b.

(** ** [is_deep_equal] (assert.py lines 251-282) *)

Definition seq_items (o : pyobj) : list loc :=
  match o with OList xs | OTuple xs => xs | _ => [] end.

Definition dict_entries (o : pyobj) : list (string * loc) :=
  match o with ODict kvs => kvs | _ => [] end.

Definition inst_dict (o : pyobj) : loc :=
  match o with OInst _ d => d | _ => O end.

(** [set(a.keys()) != set(b.keys())], negated. *)
Definition same_key_set (ka kb : list (string * loc)) : bool :=
  forallb (has_key kb) (keys ka) && forallb (has_key ka) (keys kb).

(** [d[k]]: a missing key raises [KeyError]. *)
Definition getitem (kvs : list (string * loc)) (k : string) : outcome loc :=
  match lookup k kvs with
  | Some v => Ret v
  | None => Raise (key_error k)
  end.

(** [all(f(a[k], b[k]) for k in a)], over the keys [ks] of [a] in order. *)
Fixpoint all_keys (f : loc -> loc -> outcome bool)
    (ka kb : list (string * loc)) (ks : list string) : outcome bool :=
  match ks with
  | [] => Ret true
  | k :: ks' =>
      x <- getitem ka k ;;
      y <- getitem kb k ;;
      r <- f x y ;;
      if r then all_keys f ka kb ks' else Ret false
  end.

(** The body of [is_deep_equal], with its recursive calls left to
    [rec]; [n] is the depth left for the native comparisons. *)
Definition is_deep_equal_step (n : nat) (rec : loc -> loc -> outcome bool)
    (a b : loc) : outcome bool :=
  same <- object_is n a b ;;
  if same then Ret true
  else if negb (pytype_eqb (type_of (h a)) (type_of (h b))) then Ret false
  else
    match h a with
    | OList xs | OTuple xs =>
        let ys := seq_items (h b) in
        if negb (Nat.eqb (List.length xs) (List.length ys)) then Ret false
        else all_zip rec xs ys
    | ODict ka =>
        let kb := dict_entries (h b) in
        if negb (same_key_set ka kb) then Ret false
        else all_keys rec ka kb (keys ka)
    | OSet _ => py_eq n a b
    | OBytes _ => py_eq n a b
    | OInst _ da => rec da (inst_dict (h b))
    | _ => py_eq n a b
    end.

Fixpoint is_deep_equal (fuel : nat) (a b : loc) : outcome bool :=
  match fuel with
  | O => OutOfFuel
  | S n => is_deep_equal_step n (is_deep_equal n) a b
  end.

End Store.

(** ** Arguments of the assertion functions *)

(** A compiled regular expression, given by what [search] finds. *)
Definition pattern := string -> bool.

(** What a caller can pass as [message]. *)
Inductive message : Type :=
| MNone
| MStr (s : string)
| MExc (e : exn)
| MPattern (p : pattern).

(** What a caller can pass as [expected] to [throws] and
    [does_not_throw].  A predicate is given by what calling it on an
    error does: the truth value of its result, or the error it raises. *)
Inductive expectation : Type :=
| ENone
| EStr (s : string)
| EPattern (p : pattern)
| EClass (c : cls)
| ECallable (f : exn -> outcome bool)
| EDict (items : list (string * loc))
| EOther (truth : bool).

(** A callable taking no argument, given by what calling it does. *)
Definition callable := outcome unit.

Inductive arg : Type :=
| ANone
| ABool (b : bool)
| AStr (s : string)
| ARef (l : loc)
| AExn (e : exn)
| AMsg (m : message)
| AExpect (e : expectation)
| AFn (name : string).

(** The builtin [AssertionError], called with positional and keyword
    arguments.  Its initialiser is [BaseException.__init__], which
    refuses keyword arguments: [AssertionError(message='x')] raises
    [TypeError: AssertionError() takes no keyword arguments]. *)
Definition AssertionError_new (args : list arg) (kwargs : list (string * arg))
  : outcome exn :=
  match kwargs with
  | [] =>
      Ret (mkExn AssertionError
             (match args with [AStr s] => s | _ => "" end) [])
  | _ :: _ =>
      Raise (type_error "AssertionError() takes no keyword arguments")
  end.

(** [raise AssertionError(message=..., ...)] *)
Definition raise_AssertionError {A : Type} (kwargs : list (string * arg))
  : outcome A :=
  e <- AssertionError_new [] kwargs ;; Raise e.

Definition truthy (o : pyobj) : bool :=
  match o with
  | ONone => false
  | OBool b => b
  | OInt z => negb (z =? 0)%Z
  | OFloat f => negb (SFeqb f float_zero)
  | OStr s => negb (String.eqb s "")
  | OBytes bs => negb (Nat.eqb (List.length bs) 0)
  | OList xs | OTuple xs | OSet xs => negb (Nat.eqb (List.length xs) 0)
  | ODict kvs => negb (Nat.eqb (List.length kvs) 0)
  | OInst _ _ => true
  end.

Definition message_truthy (m : message) : bool :=
  match m with
  | MNone => false
  | MStr s => negb (String.eqb s "")
  | MExc _ | MPattern _ => true
  end.

Definition message_is_none (m : message) : bool :=
  match m with MNone => true | _ => false end.

Definition expectation_truthy (e : expectation) : bool :=
  match e with
  | ENone => false
  | EStr s => negb (String.eqb s "")
  | EPattern _ | EClass _ | ECallable _ => true
  | EDict items => negb (Nat.eqb (List.length items) 0)
  | EOther t => t
  end.

(** [message or default] *)
Definition message_or (m : message) (default : string) : arg :=
  if message_truthy m then AMsg m else AStr default.

(** ** The class [AssertError] (assert.py lines 8-51) and [stringify] *)

Section Rendering.

Variable h : heap.
(** The interpreter's [str] and [repr] on an object of the store. *)
Variable py_str : loc -> string.
Variable py_repr : loc -> string.
Variable py_repr_str : string -> string.

Definition decimal (n : nat) : string :=
  DecimalString.NilZero.string_of_uint (Nat.to_uint n).

Definition type_name (o : pyobj) : string :=
  match o with
  | OList _ => "list" | OTuple _ => "tuple" | OSet _ => "set" | _ => "dict"
  end.

Definition stringify (value : loc) : string :=
  match h value with
  | ONone => "null"
  | OBool _ | OInt _ | OFloat _ => py_str value
  | OStr s =>
      py_repr_str
        (if Nat.ltb 80 (String.length s) then substring 0 80 s ++ "..." else s)
  | OBytes bs => "bytes(" ++ decimal (List.length bs) ++ ")"
  | (OList xs | OTuple xs | OSet xs) as o =>
      type_name o ++ "(" ++ decimal (List.length xs) ++ ")"
  | ODict kvs => "dict(" ++ decimal (List.length kvs) ++ ")"
  | OInst _ d =>
      (* [hasattr(value, '__name__')]: a plain instance has the
         attribute when its [__dict__] holds it; the formatted text is
         [str] of the attribute's value *)
      match lookup "__name__" (dict_entries (h d)) with
      | Some name => "function " ++ py_str name
      | None =>
          let r := py_repr value in
          substring 0 80 r
          ++ (if Nat.ltb 80 (String.length r) then "..." else "")
      end
  end.

Record AssertErrorObj : Type := mkAssertError {
  ae_message : string;
  ae_generated_message : bool;
  ae_code : string;
  ae_actual : loc;
  ae_expected : loc;
  ae_operator : string;
  ae_name : string
}.

(** [AssertError.__init__]; a missing [message] is [None], and the
    defaults of the other parameters are the caller's to supply. *)
Definition AssertError_init (msg : option string) (actual expected : loc)
    (operator : string) (generated_message : bool) : AssertErrorObj :=
  let '(text, generated) :=
    match msg with
    | None =>
        (if String.eqb operator "fail" then "Assertion failed."
         else stringify actual ++ " " ++ operator ++ " " ++ stringify expected,
         true)
    | Some s => (s, generated_message)
    end in
  mkAssertError text generated "ERR_ASSERTION" actual expected operator
    "AssertError".

Definition AssertError_str (e : AssertErrorObj) : string :=
  ae_name e ++ " [" ++ ae_code e ++ "]: " ++ ae_message e.

End Rendering.

(** ** Pieces of the parameter checks [enforce] and [range_] *)

Definition value_error (msg : string) : exn := mkExn ValueError msg [].

(** The double quote, and a text between double quotes. *)
Definition dquote : string := String (ascii_of_nat 34) EmptyString.
Definition quoted (s : string) : string := dquote ++ s ++ dquote.

(** ** The error matcher and the assertion functions *)

Section Assertions.

Variable h : heap.
Variable py_str : loc -> string.
Variable py_repr : loc -> string.
Variable py_repr_str : string -> string.

(** The loop of [test_error] over [expected.items()]. *)
Fixpoint test_items (fuel : nat) (err : exn) (items : list (string * loc))
  : outcome bool :=
  match items with
  | [] => Ret true
  | (key, value) :: rest =>
      match lookup key (exn_attrs err) with
      | None => Ret false
      | Some v =>
          same <- is_deep_equal h fuel v value ;;
          if negb same then Ret false else test_items fuel err rest
      end
  end.

(** [test_error] (assert.py lines 284-313).  Calling a class that is
    not derived from [Exception] builds an instance, which is truthy. *)
Definition test_error (fuel : nat) (err : exn) (expected : expectation)
    (msg : message) (fn : string) : outcome bool :=
  match expected with
  | EClass c =>
      if issubclass c Exception then Ret (isinstance_exn err c)
      else Ret true
  | EPattern p => Ret (p (exn_str err))
  | ECallable f =>
      match f err with
      | Ret r => Ret r
      | Raise e => if isinstance_exn e Exception then Ret false else Raise e
      | OutOfFuel => OutOfFuel
      end
  | EDict items => test_items fuel err items
  | ENone | EStr _ | EOther _ => Ret false
  end.

Definition assert_ (value : loc) (msg : message) : outcome unit :=
  if negb (truthy (h value)) then
    let default :=
      match h value with
      | ONone => "No value argument passed to `assert()`."
      | _ => "Assertion failed."
      end in
    let kwargs (m : arg) (generated : bool) :=
      [("message", m); ("actual", ARef value); ("expected", ABool true);
       ("operator", AStr "=="); ("generated_message", ABool generated);
       ("stack_start_fn", AFn "assert_")] in
    match msg with
    | MNone => raise_AssertionError (kwargs (AStr default) true)
    | MExc e =>
        if isinstance_exn e Exception then Raise e
        else raise_AssertionError (kwargs (AMsg msg) false)
    | _ => raise_AssertionError (kwargs (AMsg msg) false)
    end
  else Ret tt.

(** The common tail of the four comparison assertions: re-raise a
    caller-supplied error, else raise the assertion error. *)
Definition fail_comparison (actual expected : loc) (msg : message)
    (operator fn : string) : outcome unit :=
  match msg with
  | MExc e =>
      if isinstance_exn e Exception then Raise e
      else raise_AssertionError
             [("message", AMsg msg); ("actual", ARef actual);
              ("expected", ARef expected); ("operator", AStr operator);
              ("stack_start_fn", AFn fn)]
  | _ =>
      raise_AssertionError
        [("message", AMsg msg); ("actual", ARef actual);
         ("expected", ARef expected); ("operator", AStr operator);
         ("stack_start_fn", AFn fn)]
  end.

Definition equal (fuel : nat) (actual expected : loc) (msg : message)
  : outcome unit :=
  same <- object_is h fuel actual expected ;;
  if negb same then fail_comparison actual expected msg "strictEqual" "equal"
  else Ret tt.

Definition not_equal (fuel : nat) (actual expected : loc) (msg : message)
  : outcome unit :=
  same <- object_is h fuel actual expected ;;
  if same
  then fail_comparison actual expected msg "notStrictEqual" "not_equal"
  else Ret tt.

Definition fail (msg : message) : outcome unit :=
  let kwargs (m : arg) (generated : bool) :=
    [("message", m); ("actual", ABool false); ("expected", ABool true);
     ("operator", AStr "fail"); ("generated_message", ABool generated);
     ("stack_start_fn", AFn "fail")] in
  match msg with
  | MNone => raise_AssertionError (kwargs (AStr "Assertion failed.") true)
  | MExc e =>
      if isinstance_exn e Exception then Raise e
      else raise_AssertionError (kwargs (AMsg msg) false)
  | _ => raise_AssertionError (kwargs (AMsg msg) false)
  end.

(** [if isinstance(expected, (str, Pattern)): message, expected = expected, None] *)
Definition shift_message (expected : expectation) (msg : message)
  : message * expectation :=
  match expected with
  | EStr s => (MStr s, ENone)
  | EPattern p => (MPattern p, ENone)
  | _ => (msg, expected)
  end.

Definition throws (fuel : nat) (func : callable) (expected : expectation)
    (msg : message) : outcome unit :=
  let '(msg, expected) := shift_message expected msg in
  match func with
  | Ret _ =>
      raise_AssertionError
        [("message", message_or msg "Missing expected exception.");
         ("actual", ANone); ("expected", AExpect expected);
         ("operator", AStr "throws");
         ("generated_message", ABool (message_is_none msg));
         ("stack_start_fn", AFn "throws")]
  | Raise err =>
      if isinstance_exn err Exception then
        if expectation_truthy expected then
          ok <- test_error fuel err expected msg "throws" ;;
          if negb ok then Raise err else Ret tt
        else Ret tt
      else Raise err
  | OutOfFuel => OutOfFuel
  end.

Definition does_not_throw (fuel : nat) (func : callable)
    (expected : expectation) (msg : message) : outcome unit :=
  let '(msg, expected) := shift_message expected msg in
  match func with
  | Ret _ => Ret tt
  | Raise e =>
      if isinstance_exn e Exception then
        ok <- test_error fuel e expected msg "does_not_throw" ;;
        if ok then
          raise_AssertionError
            [("message", message_or msg "Got unwanted exception.");
             ("actual", AExn e); ("expected", AExpect expected);
             ("operator", AStr "doesNotThrow");
             ("generated_message", ABool (message_is_none msg));
             ("stack_start_fn", AFn "does_not_throw")]
        else Raise e
      else Raise e
  | OutOfFuel => OutOfFuel
  end.

Definition if_error (err : loc) : outcome unit :=
  match h err with
  | ONone => Ret tt
  | _ =>
      let msg := "ifError got unwanted exception: "
                 ++ stringify h py_str py_repr py_repr_str err in
      raise_AssertionError
        [("message", AStr msg); ("actual", ARef err); ("expected", ANone);
         ("operator", AStr "ifError"); ("generated_message", ABool true);
         ("stack_start_fn", AFn "if_error")]
  end.

Definition deep_equal (fuel : nat) (actual expected : loc) (msg : message)
  : outcome unit :=
  same <- is_deep_equal h fuel actual expected ;;
  if negb same
  then fail_comparison actual expected msg "deepStrictEqual" "deep_equal"
  else Ret tt.

Definition not_deep_equal (fuel : nat) (actual expected : loc) (msg : message)
  : outcome unit :=
  same <- is_deep_equal h fuel actual expected ;;
  if same
  then fail_comparison actual expected msg "notDeepStrictEqual" "not_deep_equal"
  else Ret tt.

(** [enforce] (assert.py lines 202-210): [TypeError(msg)] is built
    with a positional argument, so it is raised as written. *)
Definition enforce (value : loc) (name type_name : option string)
  : outcome unit :=
  if negb (truthy (h value)) then
    let msg :=
      match name with
      | None => "Invalid type for parameter."
      | Some n =>
          match type_name with
          | None => quoted n ++ " is invalid."
          | Some t => quoted n ++ " must be a " ++ t ++ "."
          end
      end in
    Raise (type_error msg)
  else Ret tt.

(** [range_] (assert.py lines 212-215); it tests [name] for truth, not
    for [None]. *)
Definition range_ (value : loc) (name : option string) : outcome unit :=
  if negb (truthy (h value)) then
    let msg :=
      match name with
      | Some n =>
          if String.eqb n "" then "Value out of range"
          else quoted n ++ " is out of range."
      | None => "Value out of range"
      end in
    Raise (value_error msg)
  else Ret tt.

(** The aliases of assert.py lines 316-326. *)
Definition strict_equal (fuel : nat) (actual expected : loc) (msg : message)
  : outcome unit := equal fuel actual expected msg.

Definition not_strict_equal (fuel : nat) (actual expected : loc)
    (msg : message) : outcome unit := not_equal fuel actual expected msg.

Definition deep_strict_equal (fuel : nat) (actual expected : loc)
    (msg : message) : outcome unit := deep_equal fuel actual expected msg.

Definition not_deep_strict_equal (fuel : nat) (actual expected : loc)
    (msg : message) : outcome unit := not_deep_equal fuel actual expected msg.

End Assertions.

(** ** Properties of stores and specification-level notions *)

(** No chain of references returns to its origin. *)
Definition acyclic (h : heap) : Prop :=
  exists rank : loc -> nat,
    forall l c, In c (children (h l)) -> rank c < rank l.

(** A [dict] holds each key once. *)
Definition dicts_wf (h : heap) : Prop :=
  forall l kvs, h l = ODict kvs -> NoDup (keys kvs).

(** Equality of key sets, as sets. *)
Definition same_keys (ka kb : list (string * loc)) : Prop :=
  forall k, In k (keys ka) <-> In k (keys kb).

(** [is_deep_equal(a, b)] returns [r]: it does so with any sufficient
    recursion depth. *)
Definition deep_equal_returns (h : heap) (a b : loc) (r : bool) : Prop :=
  exists n, forall m, n <= m -> is_deep_equal h m a b = Ret r.

(** [key_mismatch h a b]: walking [a] and [b] in step through
    sequences (same index), mappings (same key) and instances of one
    class (their [__dict__]), the way [is_deep_equal] recurses, leads
    to two mappings whose key sets differ. *)
Inductive key_mismatch (h : heap) : loc -> loc -> Prop :=
| KM_here (a b : loc) (ka kb : list (string * loc)) :
    h a = ODict ka -> h b = ODict kb -> same_key_set ka kb = false ->
    key_mismatch h a b
| KM_list (a b : loc) (xs ys : list loc) (i : nat) (x y : loc) :
    h a = OList xs -> h b = OList ys ->
    nth_error xs i = Some x -> nth_error ys i = Some y ->
    key_mismatch h x y -> key_mismatch h a b
| KM_tuple (a b : loc) (xs ys : list loc) (i : nat) (x y : loc) :
    h a = OTuple xs -> h b = OTuple ys ->
    nth_error xs i = Some x -> nth_error ys i = Some y ->
    key_mismatch h x y -> key_mismatch h a b
| KM_dict (a b : loc) (ka kb : list (string * loc)) (k : string) (x y : loc) :
    h a = ODict ka -> h b = ODict kb ->
    lookup k ka = Some x -> lookup k kb = Some y ->
    key_mismatch h x y -> key_mismatch h a b
| KM_inst (a b : loc) (c : string) (da db : loc) :
    h a = OInst c da -> h b = OInst c db ->
    key_mismatch h da db -> key_mismatch h a b.

(** [g] agrees with [f] wherever [f] has an answer. *)
Definition extends (f g : loc -> loc -> outcome bool) : Prop :=
  forall x y, f x y <> OutOfFuel -> g x y = f x y.

(** ** Sample inputs *)

(** A store holding, among others, [1] and [2] (locations 1, 2 and
    again 9, 10), the floats [0.0] (3 and again 17) and [-0.0] (4),
    two [nan] objects (5, 6), the text ['1'] (11), the mappings
    [{a: 1, b: 2}] (7), [{b: 2, a: 1}] (8) and [{a: 1}] (12), and
    lists built from them; every other location holds [None]. *)
Definition sample : heap := fun l =>
  match l with
  | 1 => OInt 1
  | 2 => OInt 2
  | 3 => OFloat float_zero
  | 4 => OFloat float_neg_zero
  | 5 => OFloat S754_nan
  | 6 => OFloat S754_nan
  | 7 => ODict [("a", 1); ("b", 2)]
  | 8 => ODict [("b", 10); ("a", 9)]
  | 9 => OInt 1
  | 10 => OInt 2
  | 11 => OStr "1"
  | 12 => ODict [("a", 1)]
  | 13 => OList [1; 7]
  | 14 => OList [9; 12]
  | 15 => OList [3; 7]
  | 16 => OList [4; 12]
  | 17 => OFloat float_zero
  | _ => ONone
  end.

Definition sample_rank (l : loc) : nat :=
  match l with
  | 7 | 8 | 12 => 1
  | 13 | 14 | 15 | 16 => 2
  | _ => 0
  end.

(** A store of mappings: [{a: 1}] (4), [{b: 1}] (5),
    [{x: 0.0, y: {a: 1}}] (6), [{x: -0.0, y: {b: 1}}] (7), [{x: 0.0}]
    (8) and [{x: -0.0}] (9), over the floats [0.0] (1) and [-0.0] (2)
    and the integer [1] (3). *)
Definition nested : heap := fun l =>
  match l with
  | 1 => OFloat float_zero
  | 2 => OFloat float_neg_zero
  | 3 => OInt 1
  | 4 => ODict [("a", 3)]
  | 5 => ODict [("b", 3)]
  | 6 => ODict [("x", 1); ("y", 4)]
  | 7 => ODict [("x", 2); ("y", 5)]
  | 8 => ODict [("x", 1)]
  | 9 => ODict [("x", 2)]
  | _ => ONone
  end.

Definition nested_rank (l : loc) : nat :=
  match l with
  | 4 | 5 | 8 | 9 => 1
  | 6 | 7 => 2
  | _ => 0
  end.

(** [ValueError('abc')], [KeyboardInterrupt()] and [SystemExit()] *)
Definition value_error_abc : exn := mkExn ValueError "abc" [].
Definition keyboard_interrupt : exn := mkExn KeyboardInterrupt "" [].
Definition system_exit : exn := mkExn SystemExit "" [].

(** [def f(): raise ValueError('abc')] *)
Definition raises_value_error : callable := Raise value_error_abc.

(** [re.compile('xyz')]: [search] looks for the literal text anywhere. *)
Definition pattern_xyz : pattern :=
  fun s => match index 0 "xyz" s with Some _ => true | None => false end.

(** A predicate interrupted while it runs, one that leaves the
    interpreter ([sys.exit()]), and one that fails. *)
Definition interrupted_predicate : exn -> outcome bool :=
  fun _ => Raise keyboard_interrupt.
Definition exiting_predicate : exn -> outcome bool :=
  fun _ => Raise system_exit.
Definition failing_predicate : exn -> outcome bool :=
  fun _ => Raise value_error_abc.

(** The error every keyword call of the builtin class ends in. *)
Definition no_keyword_arguments : exn :=
  type_error "AssertionError() takes no keyword arguments".

(** ** Further notions and inputs for the theorems on the whole module *)

(** The pairs of objects [is_deep_equal] descends into: two lists, two
    tuples, two mappings, two instances of one class. *)
Definition recursed_into (oa ob : pyobj) : bool :=
  match oa, ob with
  | OList _, OList _ | OTuple _, OTuple _ | ODict _, ODict _ => true
  | OInst c _, OInst d _ => String.eqb c d
  | _, _ => false
  end.

(** Two sequences of one type, with their items. *)
Definition seq_pair (h : heap) (a b : loc) (xs ys : list loc) : Prop :=
  (h a = OList xs /\ h b = OList ys) \/ (h a = OTuple xs /\ h b = OTuple ys).

(** The size of a collection or byte string. *)
Definition sized (o : pyobj) : option nat :=
  match o with
  | OBytes bs => Some (List.length bs)
  | OList xs | OTuple xs | OSet xs => Some (List.length xs)
  | ODict kvs => Some (List.length kvs)
  | _ => None
  end.

(** A second store: the numbers [1] (1), [1.0] (2), [True] (3), [0.0]
    (4) and [-0.0] (5); the lists [[0.0]] (6), [[-0.0]] (7), [[1, 1]]
    (8) and [[1]] (9); the tuple [(1,)] (10); the mappings [{x: 1}]
    (11) and [{x: 1.0}] (12); instances of a class [P] over these two
    mappings (13, 14) and of a class [Q] over the first (15); the sets
    [{1}] (16) and [{1.0}] (17); the mapping [{x: 0.0}] (18), the list
    [[-0.0, 1]] (19) and the mappings [{x: -0.0}] (20),
    [{x: 0.0, y: 1}] (21) and [{y: [1, 1], x: -0.0}] (22). *)
Definition zoo : heap := fun l =>
  match l with
  | 1 => OInt 1
  | 2 => OFloat float_one
  | 3 => OBool true
  | 4 => OFloat float_zero
  | 5 => OFloat float_neg_zero
  | 6 => OList [4]
  | 7 => OList [5]
  | 8 => OList [1; 1]
  | 9 => OList [1]
  | 10 => OTuple [1]
  | 11 => ODict [("x", 1)]
  | 12 => ODict [("x", 2)]
  | 13 => OInst "P" 11
  | 14 => OInst "P" 12
  | 15 => OInst "Q" 11
  | 16 => OSet [1]
  | 17 => OSet [2]
  | 18 => ODict [("x", 4)]
  | 19 => OList [5; 1]
  | 20 => ODict [("x", 5)]
  | 21 => ODict [("x", 4); ("y", 1)]
  | 22 => ODict [("y", 8); ("x", 5)]
  | _ => ONone
  end.

Definition zoo_rank (l : loc) : nat :=
  match l with
  | 6 | 7 | 8 | 9 | 10 | 11 | 12 | 16 | 17 | 18 | 19 | 20 | 21 => 1
  | 13 | 14 | 15 | 22 => 2
  | _ => 0
  end.

(** [ValueError('coded')] carrying one attribute, [code], bound to
    location 1 of a store. *)
Definition coded_error : exn := mkExn ValueError "coded" [("code", 1)].

(** A store without sets. *)
Definition no_sets (h : heap) : Prop := forall l xs, h l <> OSet xs.

(** * Theorems *)

(** ** The identity comparator *)

Lemma py_is_refl (h : heap) (a : loc) : py_is h a a = true.
Proof. unfold py_is. now rewrite Nat.eqb_refl. Qed.

(** Same reference: [object_is] answers [True] at once. *)
Lemma object_is_same (h : heap) (fuel : nat) (a : loc) :
  object_is h fuel a a = Ret true.
Proof. unfold object_is. now rewrite py_is_refl. Qed.

(** Two [nan] floats, whether one object or two, are the same value. *)
Lemma object_is_nan (h : heap) (fuel : nat) (a b : loc) :
  h a = OFloat S754_nan -> h b = OFloat S754_nan ->
  object_is h fuel a b = Ret true.
Proof.
  intros Ha Hb. unfold object_is.
  destruct (py_is h a b); [reflexivity|].
  now rewrite Ha, Hb.
Qed.

Lemma int_float_eqb_zero (f : spec_float) :
  int_float_eqb 0 f = true -> exists s, f = S754_zero s.
Proof.
  destruct f as [s| | |s m e]; unfold int_float_eqb; try discriminate.
  - intros _. now exists s.
  - destruct (0 <=? e)%Z eqn:He.
    + intros H. apply Z.eqb_eq in H. apply Z.leb_le in He.
      assert (0 < 2 ^ e)%Z by (apply Z.pow_pos_nonneg; lia).
      destruct s; nia.
    + intros H. apply Z.eqb_eq in H. destruct s; discriminate.
Qed.

(** Whatever compares equal to [0] cannot be divided by. *)
Lemma one_over_zero (o : pyobj) :
  eq_int_literal o 0 = true ->
  exists msg, one_over_is_positive o = Raise (zero_division msg).
Proof.
  unfold eq_int_literal.
  destruct o as [|b|z|f| | | | | | |]; simpl; try discriminate.
  - destruct b; [discriminate|]. intros _. now eexists.
  - intros H. rewrite H. now eexists.
  - intros H. apply int_float_eqb_zero in H as [s ->].
    destruct s; now eexists.
Qed.

(** The signed-zero test of [object_is] never gets to compare signs:
    once both operands equal [0] and are not one object, the division
    [1/a] raises. *)
Lemma object_is_zero_raises (h : heap) (fuel : nat) (a b : loc) :
  py_is h a b = false ->
  eq_int_literal (h a) 0 = true -> eq_int_literal (h b) 0 = true ->
  exists msg, object_is h fuel a b = Raise (zero_division msg).
Proof.
  intros Hid Ha Hb. unfold object_is. rewrite Hid, Ha, Hb.
  destruct (one_over_zero _ Ha) as [msg Hmsg].
  exists msg.
  assert (Hnan : float_isnan (h a) = false).
  { destruct (h a) as [| | |f| | | | | | |]; try reflexivity.
    destruct f; try reflexivity. discriminate Ha. }
  rewrite Hnan, andb_false_r. simpl. now rewrite Hmsg.
Qed.

(** C4 (code defect): [object_is] is to return a boolean and never
    raise; on the floats [0.0] and [-0.0], and on two objects that
    both are [0.0], it raises [ZeroDivisionError], whatever the
    recursion depth. *)
Theorem object_is_signed_zero_raises :
  forall fuel,
    object_is sample fuel 3 4
    = Raise (zero_division "float division by zero") /\
    object_is sample fuel 3 17
    = Raise (zero_division "float division by zero").
Proof. intros fuel. split; reflexivity. Qed.

(** C5 (code defect): of the three SameValue laws the first two hold,
    [object_is(x, x)] and [object_is(nan, nan)] are true, and the
    third fails: [object_is(+0.0, -0.0)] is not false, it raises. *)
Theorem object_is_same_value_laws :
  (forall h fuel x, object_is h fuel x x = Ret true) /\
  (forall fuel, object_is sample fuel 5 6 = Ret true) /\
  (forall fuel,
      object_is sample fuel 3 4 <> Ret false /\
      object_is sample fuel 3 4
      = Raise (zero_division "float division by zero")).
Proof.
  split; [exact object_is_same|].
  split; [intros fuel; now apply object_is_nan|].
  intros fuel. split; [discriminate|reflexivity].
Qed.

(** ** The structured error and the assertion functions *)

(** Any keyword argument makes the builtin class refuse the call, so
    [raise AssertionError(message=..., ...)] raises [TypeError]. *)
Lemma raise_AssertionError_keywords (A : Type) (k : string * arg)
    (kwargs : list (string * arg)) :
  @raise_AssertionError A (k :: kwargs) = Raise no_keyword_arguments.
Proof. reflexivity. Qed.

(** The class [AssertError] itself carries the documented attributes:
    the fixed code, the operands and operator as given, and a
    [generated_message] flag that is set when no message is given. *)
Lemma AssertError_init_attributes (h : heap) (py_str py_repr : loc -> string)
    (py_repr_str : string -> string) (msg : option string)
    (actual expected : loc) (operator : string) (generated : bool) :
  let e := AssertError_init h py_str py_repr py_repr_str msg actual expected
             operator generated in
  ae_code e = "ERR_ASSERTION" /\ ae_actual e = actual /\
  ae_expected e = expected /\ ae_operator e = operator /\
  ae_generated_message e
  = match msg with None => true | Some _ => generated end /\
  (forall s, msg = Some s -> ae_message e = s).
Proof.
  unfold AssertError_init. destruct msg as [s|]; simpl; repeat split.
  - intros s' [= ->]. reflexivity.
  - intros s [=].
Qed.

(** C1 (code defect): a failing assertion is to raise the structured
    error with [message], [actual], [expected], [operator],
    [generatedMessage] and the error code.  Each of the nine functions
    calls the builtin [AssertionError] with keyword arguments instead of
    the module's [AssertError], so each fails with a bare [TypeError]
    that has none of these attributes and is not an assertion error. *)
Theorem assertions_fail_with_TypeError :
  forall (py_str py_repr : loc -> string) (py_repr_str : string -> string)
         (fuel : nat),
    assert_ sample 0 MNone = Raise no_keyword_arguments /\
    equal sample (S fuel) 1 11 MNone = Raise no_keyword_arguments /\
    not_equal sample fuel 1 1 MNone = Raise no_keyword_arguments /\
    fail MNone = Raise no_keyword_arguments /\
    throws sample fuel (Ret tt) (EClass ValueError) MNone
    = Raise no_keyword_arguments /\
    does_not_throw sample fuel raises_value_error (EClass ValueError) MNone
    = Raise no_keyword_arguments /\
    if_error sample py_str py_repr py_repr_str 1 = Raise no_keyword_arguments /\
    deep_equal sample (S (S fuel)) 1 11 MNone = Raise no_keyword_arguments /\
    not_deep_equal sample (S fuel) 1 1 MNone = Raise no_keyword_arguments /\
    exn_cls no_keyword_arguments = TypeError /\
    exn_attrs no_keyword_arguments = [] /\
    isinstance_exn no_keyword_arguments AssertError = false /\
    isinstance_exn no_keyword_arguments AssertionError = false.
Proof. intros. repeat split. Qed.

(** C9 (code defect): the flag [generatedMessage] is to tell a
    synthesized message from a supplied one.  [fail('custom')] and
    [fail()] raise the same [TypeError], which carries no such flag. *)
Theorem fail_loses_generated_message :
  fail (MStr "custom") = Raise no_keyword_arguments /\
  fail MNone = Raise no_keyword_arguments /\
  lookup "generated_message" (exn_attrs no_keyword_arguments) = None /\
  lookup "generatedMessage" (exn_attrs no_keyword_arguments) = None.
Proof. repeat split. Qed.

(** ** The error matcher, [throws] and [does_not_throw] *)

(** Without an expectation the matcher answers [False]. *)
Lemma test_error_none (h : heap) (fuel : nat) (err : exn) (msg : message)
    (fn : string) :
  test_error h fuel err ENone msg fn = Ret false.
Proof. reflexivity. Qed.

(** [does_not_throw(f)] lets any error of [f] through unchanged. *)
Lemma does_not_throw_propagates (h : heap) (fuel : nat) (e : exn)
    (msg : message) :
  does_not_throw h fuel (Raise e) ENone msg = Raise e.
Proof.
  unfold does_not_throw. simpl. now destruct (isinstance_exn e Exception).
Qed.

(** C2 (code defect): [does_not_throw(f)] with no expectation is to
    fail with operator [doesNotThrow] when [f] raises.  The matcher
    rejects the missing expectation, so the original [ValueError]
    propagates; it is no assertion error. *)
Theorem does_not_throw_without_expectation :
  forall (h : heap) (fuel : nat),
    does_not_throw h fuel raises_value_error ENone MNone
    = Raise value_error_abc /\
    isinstance_exn value_error_abc AssertionError = false /\
    isinstance_exn value_error_abc AssertError = false.
Proof. intros. repeat split. Qed.

(** A pattern in the place of the expectation becomes the message:
    [throws] then accepts every error, whatever the pattern. *)
Lemma throws_ignores_pattern (h : heap) (fuel : nat) (e : exn) (p : pattern)
    (msg : message) :
  isinstance_exn e Exception = true ->
  throws h fuel (Raise e) (EPattern p) msg = Ret tt.
Proof. intros He. unfold throws. simpl. now rewrite He. Qed.

(** C3 (code defect): [throws(f, pattern)] is to pass iff the pattern
    matches the text of the error and to re-raise the error otherwise.
    [re.compile('xyz')] does not match [ValueError('abc')], yet
    [throws] passes; and when [f] does not raise the failure is the
    [TypeError] of the keyword call. *)
Theorem throws_pattern_not_applied :
  forall (h : heap) (fuel : nat),
    pattern_xyz (exn_str value_error_abc) = false /\
    throws h fuel raises_value_error (EPattern pattern_xyz) MNone = Ret tt /\
    throws h fuel (Ret tt) (EPattern pattern_xyz) MNone
    = Raise no_keyword_arguments.
Proof. intros. repeat split. Qed.

(** With an expectation that is neither text nor pattern and is truthy,
    an unmatched error is re-raised as it is. *)
Lemma throws_reraises_unmatched (h : heap) (fuel : nat) (e : exn)
    (expected : expectation) (msg : message) :
  isinstance_exn e Exception = true ->
  shift_message expected msg = (msg, expected) ->
  expectation_truthy expected = true ->
  test_error h fuel e expected msg "throws" = Ret false ->
  throws h fuel (Raise e) expected msg = Raise e.
Proof.
  intros He Hs Ht Hm. unfold throws. rewrite Hs, He, Ht, Hm. reflexivity.
Qed.

(** C6 (code defect): an error that fails the expectation is to be
    re-raised by [throws].  It is for a class ([ValueError('abc')]
    against [KeyError]); for a pattern the matcher says no match and
    [throws] still returns normally. *)
Theorem throws_unmatched_pattern_passes :
  forall (h : heap) (fuel : nat),
    test_error h fuel value_error_abc (EClass KeyError) MNone "throws"
    = Ret false /\
    throws h fuel raises_value_error (EClass KeyError) MNone
    = Raise value_error_abc /\
    test_error h fuel value_error_abc (EPattern pattern_xyz) MNone "throws"
    = Ret false /\
    throws h fuel raises_value_error (EPattern pattern_xyz) MNone = Ret tt.
Proof. intros. repeat split. Qed.

(** C8 (as stated, refuted): a predicate that raises does not always
    make the matcher answer [False]; [KeyboardInterrupt] is outside
    [Exception] and passes through [except Exception]. *)
Lemma predicate_interrupt_propagates :
  interrupted_predicate value_error_abc = Raise keyboard_interrupt /\
  test_error sample 0 value_error_abc (ECallable interrupted_predicate)
    MNone "throws"
  = Raise keyboard_interrupt /\
  test_error sample 0 value_error_abc (ECallable interrupted_predicate)
    MNone "throws"
  <> Ret false.
Proof. repeat split. discriminate. Qed.

(** C8 (amended): when the predicate raises, the matcher returns
    [False] if the error is derived from [Exception], and nothing
    propagates; an error outside [Exception], such as a
    [KeyboardInterrupt] or a [SystemExit], propagates as it is. *)
Theorem test_error_when_predicate_raises (h : heap) (fuel : nat)
    (f : exn -> outcome bool) (err e : exn) (msg : message) (fn : string) :
  f err = Raise e ->
  (isinstance_exn e Exception = true ->
   test_error h fuel err (ECallable f) msg fn = Ret false) /\
  (isinstance_exn e Exception = false ->
   test_error h fuel err (ECallable f) msg fn = Raise e) /\
  (exn_cls e = KeyboardInterrupt \/ exn_cls e = SystemExit ->
   test_error h fuel err (ECallable f) msg fn = Raise e).
Proof.
  intros Hf. unfold test_error. rewrite Hf.
  split; [|split].
  - now intros ->.
  - now intros ->.
  - unfold isinstance_exn. now intros [-> | ->].
Qed.

Lemma test_error_when_predicate_raises_witness :
  test_error sample 0 value_error_abc (ECallable failing_predicate)
    MNone "throws"
  = Ret false /\
  test_error sample 0 value_error_abc (ECallable exiting_predicate)
    MNone "throws"
  = Raise system_exit.
Proof.
  split.
  - apply (proj1 (test_error_when_predicate_raises sample 0 failing_predicate
                    value_error_abc value_error_abc MNone "throws" eq_refl)).
    reflexivity.
  - apply (proj2 (proj2 (test_error_when_predicate_raises sample 0
                           exiting_predicate value_error_abc system_exit
                           MNone "throws" eq_refl))).
    now right.
Defined.

(** ** Recursion depth: more fuel never changes a result *)

Lemma bind_fuel {A B : Type} (m : outcome A) (k : A -> outcome B) :
  bind m k <> OutOfFuel -> m <> OutOfFuel.
Proof. destruct m; simpl; congruence. Qed.

Lemma bind_ret {A B : Type} (m : outcome A) (k : A -> outcome B) (r : B) :
  bind m k = Ret r -> exists a, m = Ret a /\ k a = Ret r.
Proof. destruct m; simpl; try discriminate. intros H. now exists a. Qed.

Lemma bind_raise {A B : Type} (m : outcome A) (k : A -> outcome B) (e : exn) :
  bind m k = Raise e -> m = Raise e \/ exists a, m = Ret a /\ k a = Raise e.
Proof.
  destruct m; simpl; try discriminate.
  - intros H. right. now exists a.
  - intros [= ->]. now left.
Qed.

Section Monotone.

Variable h : heap.

Lemma item_extends (f g : loc -> loc -> outcome bool) :
  extends f g -> extends (item_of h f) (item_of h g).
Proof.
  intros E x y. unfold item_of. destruct (py_is h x y); auto.
Qed.

Ltac step_with E x y H :=
  let Hx := fresh "Hx" in
  pose proof (bind_fuel _ _ H) as Hx; rewrite (E x y Hx);
  let r := fresh "r" in
  destruct (_ x y) as [r| |]; simpl in *; try congruence;
  destruct r; auto.

Lemma all_zip_extends (f g : loc -> loc -> outcome bool) (xs ys : list loc) :
  extends f g ->
  all_zip f xs ys <> OutOfFuel -> all_zip g xs ys = all_zip f xs ys.
Proof.
  intros E. revert ys.
  induction xs as [|x xs IH]; intros [|y ys]; simpl; trivial.
  intros H. step_with E x y H.
Qed.

Lemma dict_entries_eq_extends (f g : loc -> loc -> outcome bool)
    (kvs other : list (string * loc)) :
  extends f g ->
  dict_entries_eq f kvs other <> OutOfFuel ->
  dict_entries_eq g kvs other = dict_entries_eq f kvs other.
Proof.
  intros E. induction kvs as [|[k v] kvs IH]; simpl; trivial.
  destruct (lookup k other) as [w|]; trivial.
  intros H. step_with E v w H.
Qed.

Lemma contains_extends (f g : loc -> loc -> outcome bool) (x : loc)
    (ys : list loc) :
  extends f g ->
  contains f x ys <> OutOfFuel -> contains g x ys = contains f x ys.
Proof.
  intros E. induction ys as [|y ys IH]; simpl; trivial.
  intros H. step_with E x y H.
Qed.

Lemma subset_extends (f g : loc -> loc -> outcome bool) (xs ys : list loc) :
  extends f g ->
  subset f xs ys <> OutOfFuel -> subset g xs ys = subset f xs ys.
Proof.
  intros E. induction xs as [|x xs IH]; simpl; trivial.
  intros H. pose proof (bind_fuel _ _ H) as Hx.
  rewrite (contains_extends f g x ys E Hx).
  destruct (contains f x ys) as [[|]| |]; simpl in *; try congruence; auto.
Qed.

Lemma all_keys_extends (f g : loc -> loc -> outcome bool)
    (ka kb : list (string * loc)) (ks : list string) :
  extends f g ->
  all_keys f ka kb ks <> OutOfFuel ->
  all_keys g ka kb ks = all_keys f ka kb ks.
Proof.
  intros E. induction ks as [|k ks IH]; simpl; trivial.
  destruct (getitem ka k) as [x| |]; simpl; trivial.
  destruct (getitem kb k) as [y| |]; simpl; trivial.
  intros H. step_with E x y H.
Qed.

Lemma py_eq_step_extends (f g : loc -> loc -> outcome bool) (a b : loc) :
  extends f g ->
  py_eq_step h f a b <> OutOfFuel -> py_eq_step h g a b = py_eq_step h f a b.
Proof.
  intros E. apply item_extends in E. unfold py_eq_step.
  fold (item_of h f). fold (item_of h g).
  destruct (h a), (h b); trivial;
    match goal with
    | |- context [Nat.eqb ?x ?y] => destruct (Nat.eqb x y); trivial
    end.
  - now apply all_zip_extends.
  - now apply all_zip_extends.
  - now apply dict_entries_eq_extends.
  - now apply subset_extends.
Qed.

Lemma py_eq_mono (n : nat) :
  forall a b, py_eq h n a b <> OutOfFuel -> py_eq h (S n) a b = py_eq h n a b.
Proof.
  induction n as [|n IH]; intros a b H.
  - now contradiction H.
  - change (py_eq_step h (py_eq h (S n)) a b = py_eq_step h (py_eq h n) a b).
    apply py_eq_step_extends; [exact IH | exact H].
Qed.

Lemma object_is_mono (n : nat) (a b : loc) :
  object_is h n a b <> OutOfFuel -> object_is h (S n) a b = object_is h n a b.
Proof.
  unfold object_is.
  destruct (py_is h a b); trivial.
  destruct (is_float (h a) && is_float (h b) && float_isnan (h a)
            && float_isnan (h b)); trivial.
  destruct (eq_int_literal (h a) 0 && eq_int_literal (h b) 0).
  - destruct (one_over_is_positive (h a)) as [pa| |]; simpl; trivial.
    destruct (one_over_is_positive (h b)) as [pb| |]; simpl; trivial.
    destruct (negb (Bool.eqb pa pb)); trivial. apply py_eq_mono.
  - apply py_eq_mono.
Qed.

Lemma is_deep_equal_step_extends (n : nat) (f g : loc -> loc -> outcome bool)
    (a b : loc) :
  extends f g ->
  is_deep_equal_step h n f a b <> OutOfFuel ->
  is_deep_equal_step h (S n) g a b = is_deep_equal_step h n f a b.
Proof.
  intros E H. unfold is_deep_equal_step in *.
  pose proof (bind_fuel _ _ H) as Ho. rewrite (object_is_mono n a b Ho).
  destruct (object_is h n a b) as [[|]| |]; simpl in *; trivial.
  destruct (negb (pytype_eqb (type_of (h a)) (type_of (h b)))); trivial.
  destruct (h a); try (now apply py_eq_mono).
  - destruct (negb _); trivial. now apply all_zip_extends.
  - destruct (negb _); trivial. now apply all_zip_extends.
  - destruct (negb _); trivial. now apply all_keys_extends.
  - now apply E.
Qed.

Lemma is_deep_equal_mono (n : nat) :
  forall a b,
    is_deep_equal h n a b <> OutOfFuel ->
    is_deep_equal h (S n) a b = is_deep_equal h n a b.
Proof.
  induction n as [|n IH]; intros a b H.
  - now contradiction H.
  - change (is_deep_equal_step h (S n) (is_deep_equal h (S n)) a b
            = is_deep_equal_step h n (is_deep_equal h n) a b).
    apply is_deep_equal_step_extends; [exact IH | exact H].
Qed.

Lemma py_eq_mono_le (n m : nat) (a b : loc) :
  n <= m -> py_eq h n a b <> OutOfFuel -> py_eq h m a b = py_eq h n a b.
Proof.
  intros Hle H. induction Hle as [|m Hle IH]; trivial.
  rewrite py_eq_mono; congruence.
Qed.

Lemma is_deep_equal_mono_le (n m : nat) (a b : loc) :
  n <= m -> is_deep_equal h n a b <> OutOfFuel ->
  is_deep_equal h m a b = is_deep_equal h n a b.
Proof.
  intros Hle H. induction Hle as [|m Hle IH]; trivial.
  rewrite is_deep_equal_mono; congruence.
Qed.

End Monotone.

(** ** Mappings as association lists *)

Lemma lookup_some_in (k : string) (kvs : list (string * loc)) (v : loc) :
  lookup k kvs = Some v -> In (k, v) kvs.
Proof.
  induction kvs as [|[k' w] kvs IH]; simpl; [discriminate|].
  destruct (String.eqb k k') eqn:E.
  - apply String.eqb_eq in E. intros [= ->]. left. now subst.
  - auto.
Qed.

Lemma lookup_in_keys (k : string) (kvs : list (string * loc)) (v : loc) :
  lookup k kvs = Some v -> In k (keys kvs).
Proof.
  intros H. apply lookup_some_in in H.
  unfold keys. now apply (in_map fst) in H.
Qed.

Lemma lookup_in_values (k : string) (kvs : list (string * loc)) (v : loc) :
  lookup k kvs = Some v -> In v (map snd kvs).
Proof. intros H. apply lookup_some_in in H. now apply (in_map snd) in H. Qed.

Lemma in_keys_lookup (k : string) (kvs : list (string * loc)) :
  In k (keys kvs) -> exists v, lookup k kvs = Some v.
Proof.
  induction kvs as [|[k' w] kvs IH]; simpl; [tauto|].
  destruct (String.eqb k k') eqn:E; [eauto|].
  intros [->|H]; [|auto]. now rewrite String.eqb_refl in E.
Qed.

Lemma has_key_in (kvs : list (string * loc)) (k : string) :
  has_key kvs k = true <-> In k (keys kvs).
Proof.
  unfold has_key. split.
  - destruct (lookup k kvs) eqn:E; [|discriminate].
    intros _. eapply lookup_in_keys; eauto.
  - intros H. apply in_keys_lookup in H as [v ->]. reflexivity.
Qed.

Lemma same_key_set_spec (ka kb : list (string * loc)) :
  same_key_set ka kb = true <-> same_keys ka kb.
Proof.
  unfold same_key_set, same_keys.
  rewrite andb_true_iff, !forallb_forall. split.
  - intros [H1 H2] k. split; intros Hk.
    + apply has_key_in, H1, Hk.
    + apply has_key_in, H2, Hk.
  - intros H. split; intros k Hk; apply has_key_in, H, Hk.
Qed.

Lemma same_key_set_refl (ka : list (string * loc)) : same_key_set ka ka = true.
Proof. apply same_key_set_spec. intros k. tauto. Qed.

(** The order of the entries of a mapping bears neither on what a key
    finds nor on the key set. *)
Lemma lookup_permutation (k : string) (kvs kvs' : list (string * loc)) :
  Permutation kvs kvs' -> NoDup (keys kvs) -> lookup k kvs = lookup k kvs'.
Proof.
  induction 1 as [|[k0 v0] l l' Hp IH|[k1 v1] [k2 v2] l|l l' l'' Hp1 IH1 Hp2 IH2];
    intros Hnd; simpl in *.
  - reflexivity.
  - destruct (String.eqb k k0); [reflexivity|].
    apply IH. now inversion Hnd.
  - destruct (String.eqb k k1) eqn:E1, (String.eqb k k2) eqn:E2; trivial.
    apply String.eqb_eq in E1, E2. subst k1 k2.
    inversion Hnd as [|? ? Hnotin _]. exfalso. apply Hnotin. now left.
  - rewrite IH1 by assumption. apply IH2.
    unfold keys in *. eapply Permutation_NoDup; [|exact Hnd].
    now apply Permutation_map.
Qed.

Lemma same_keys_permutation (ka kb kb' : list (string * loc)) :
  Permutation kb kb' -> same_keys ka kb <-> same_keys ka kb'.
Proof.
  intros Hp. unfold same_keys, keys.
  assert (Hk : forall k, In k (map fst kb) <-> In k (map fst kb')).
  { intros k. split; apply Permutation_in;
      [|apply Permutation_sym]; now apply Permutation_map. }
  split; intros H k; rewrite (H k) || rewrite <- (H k);
    [apply Hk | symmetry; apply Hk].
Qed.

(** ** Which errors can come out *)

Section Errors.

Variable h : heap.

Lemma all_zip_raise (f : loc -> loc -> outcome bool) (xs ys : list loc)
    (e : exn) :
  all_zip f xs ys = Raise e -> exists x y, f x y = Raise e.
Proof.
  revert ys. induction xs as [|x xs IH]; intros [|y ys]; simpl;
    try discriminate.
  intros H. apply bind_raise in H as [H|[r [_ H]]]; [eauto|].
  destruct r; [eauto|discriminate].
Qed.

Lemma dict_entries_eq_raise (f : loc -> loc -> outcome bool)
    (kvs other : list (string * loc)) (e : exn) :
  dict_entries_eq f kvs other = Raise e -> exists x y, f x y = Raise e.
Proof.
  induction kvs as [|[k v] kvs IH]; simpl; [discriminate|].
  destruct (lookup k other) as [w|]; [|discriminate].
  intros H. apply bind_raise in H as [H|[r [_ H]]]; [eauto|].
  destruct r; [eauto|discriminate].
Qed.

Lemma contains_raise (f : loc -> loc -> outcome bool) (x : loc)
    (ys : list loc) (e : exn) :
  contains f x ys = Raise e -> exists x y, f x y = Raise e.
Proof.
  induction ys as [|y ys IH]; simpl; [discriminate|].
  intros H. apply bind_raise in H as [H|[r [_ H]]]; [eauto|].
  destruct r; [discriminate|eauto].
Qed.

Lemma subset_raise (f : loc -> loc -> outcome bool) (xs ys : list loc)
    (e : exn) :
  subset f xs ys = Raise e -> exists x y, f x y = Raise e.
Proof.
  induction xs as [|x xs IH]; simpl; [discriminate|].
  intros H. apply bind_raise in H as [H|[r [_ H]]].
  - eapply contains_raise; eauto.
  - destruct r; [eauto|discriminate].
Qed.

Lemma all_keys_raise (f : loc -> loc -> outcome bool)
    (ka kb : list (string * loc)) (ks : list string) (e : exn) :
  (forall k, In k ks -> has_key ka k = true /\ has_key kb k = true) ->
  all_keys f ka kb ks = Raise e -> exists x y, f x y = Raise e.
Proof.
  induction ks as [|k ks IH]; simpl; [discriminate|].
  intros Hk. destruct (Hk k (or_introl eq_refl)) as [Ha Hb].
  unfold getitem, has_key in *.
  destruct (lookup k ka) as [x|]; [|discriminate].
  destruct (lookup k kb) as [y|]; [|discriminate]. simpl.
  intros H. apply bind_raise in H as [H|[r [_ H]]]; [eauto|].
  destruct r; [|discriminate]. apply IH; auto.
Qed.

Lemma item_of_raise (f : loc -> loc -> outcome bool) (x y : loc) (e : exn) :
  item_of h f x y = Raise e -> f x y = Raise e.
Proof. unfold item_of. destruct (py_is h x y); [discriminate|auto]. Qed.

Lemma py_eq_step_no_raise (f : loc -> loc -> outcome bool) (a b : loc) :
  (forall x y e, f x y <> Raise e) -> forall e, py_eq_step h f a b <> Raise e.
Proof.
  intros Hf e H. unfold py_eq_step in H.
  fold (item_of h f) in H.
  assert (Hi : forall x y, item_of h f x y <> Raise e).
  { intros x y Hxy. apply item_of_raise in Hxy. now apply Hf in Hxy. }
  destruct (h a), (h b); try discriminate;
    try (destruct (to_num _); discriminate);
    match type of H with
    | context [Nat.eqb ?x ?y] => destruct (Nat.eqb x y); try discriminate
    end.
  - apply all_zip_raise in H as (x & y & H). now apply Hi in H.
  - apply all_zip_raise in H as (x & y & H). now apply Hi in H.
  - apply dict_entries_eq_raise in H as (x & y & H). now apply Hi in H.
  - apply subset_raise in H as (x & y & H). now apply Hi in H.
Qed.

(** Native equality raises nothing on the objects of the model. *)
Lemma py_eq_no_raise (n : nat) :
  forall a b e, py_eq h n a b <> Raise e.
Proof.
  induction n as [|n IH]; intros a b e; [discriminate|].
  apply py_eq_step_no_raise. exact IH.
Qed.

(** [object_is] raises nothing but the [ZeroDivisionError] of [1/a]. *)
Lemma object_is_raise (n : nat) (a b : loc) (e : exn) :
  object_is h n a b = Raise e -> exists msg, e = zero_division msg.
Proof.
  unfold object_is.
  destruct (py_is h a b); [discriminate|].
  destruct (is_float (h a) && is_float (h b) && float_isnan (h a)
            && float_isnan (h b)); [discriminate|].
  destruct (eq_int_literal (h a) 0) eqn:Ha; simpl.
  - destruct (eq_int_literal (h b) 0).
    + destruct (one_over_zero _ Ha) as [msg ->]. simpl.
      intros [= <-]. now exists msg.
    + intros H. now apply py_eq_no_raise in H.
  - intros H. now apply py_eq_no_raise in H.
Qed.

(** [is_deep_equal] raises nothing else either: its key lookups cannot
    fail once the key sets agree. *)
Lemma is_deep_equal_raise (n : nat) :
  forall a b e,
    is_deep_equal h n a b = Raise e -> exists msg, e = zero_division msg.
Proof.
  induction n as [|n IH]; intros a b e; [discriminate|].
  simpl. unfold is_deep_equal_step. intros H.
  apply bind_raise in H as [H|[same [_ H]]].
  { eapply object_is_raise; eauto. }
  destruct same; [discriminate|].
  destruct (negb (pytype_eqb (type_of (h a)) (type_of (h b))));
    [discriminate|].
  destruct (h a) as [| | | | | |xs|xs|ka| |c da];
    try (now apply py_eq_no_raise in H).
  - destruct (negb _); [discriminate|].
    apply all_zip_raise in H as (x & y & H). eauto.
  - destruct (negb _); [discriminate|].
    apply all_zip_raise in H as (x & y & H). eauto.
  - destruct (same_key_set ka (dict_entries (h b))) eqn:Hk;
      [|discriminate]. simpl in H.
    apply all_keys_raise in H as (x & y & H); [eauto|].
    intros k Hin. apply same_key_set_spec in Hk.
    split; apply has_key_in; [exact Hin | now apply Hk].
  - eauto.
Qed.

End Errors.

(** ** Where the errors of the assertion functions come from

    Whatever one of the functions raises is the [TypeError] of the
    keyword call, an error object the caller handed in (as [message],
    or raised by the callable or the predicate), or the
    [ZeroDivisionError] of [object_is].  None of them is built by the
    module as a structured error. *)













(** ** Termination on acyclic stores *)

Section Termination.

Variable h : heap.
Variable rank : loc -> nat.
Hypothesis rank_decreases :
  forall l c, In c (children (h l)) -> rank c < rank l.

Lemma all_zip_total (f : loc -> loc -> outcome bool) (xs ys : list loc) :
  (forall x, In x xs -> forall y, f x y <> OutOfFuel) ->
  all_zip f xs ys <> OutOfFuel.
Proof.
  revert ys. induction xs as [|x xs IH]; intros [|y ys] Hf; simpl;
    try discriminate.
  pose proof (Hf x (or_introl eq_refl) y) as Hx.
  destruct (f x y) as [[|]| |]; simpl; try congruence.
  apply IH. intros x' Hin. apply Hf. now right.
Qed.

Lemma dict_entries_eq_total (f : loc -> loc -> outcome bool)
    (kvs other : list (string * loc)) :
  (forall v, In v (map snd kvs) -> forall w, f v w <> OutOfFuel) ->
  dict_entries_eq f kvs other <> OutOfFuel.
Proof.
  induction kvs as [|[k v] kvs IH]; intros Hf; simpl; try discriminate.
  destruct (lookup k other) as [w|]; [|discriminate].
  pose proof (Hf v (or_introl eq_refl) w) as Hx.
  destruct (f v w) as [[|]| |]; simpl; try congruence.
  apply IH. intros v' Hin. apply Hf. now right.
Qed.

Lemma contains_total (f : loc -> loc -> outcome bool) (x : loc)
    (ys : list loc) :
  (forall y, f x y <> OutOfFuel) -> contains f x ys <> OutOfFuel.
Proof.
  intros Hf. induction ys as [|y ys IH]; simpl; try discriminate.
  pose proof (Hf y) as Hx.
  destruct (f x y) as [[|]| |]; simpl; congruence.
Qed.

Lemma subset_total (f : loc -> loc -> outcome bool) (xs ys : list loc) :
  (forall x, In x xs -> forall y, f x y <> OutOfFuel) ->
  subset f xs ys <> OutOfFuel.
Proof.
  induction xs as [|x xs IH]; intros Hf; simpl; try discriminate.
  pose proof (contains_total f x ys (Hf x (or_introl eq_refl))) as Hx.
  destruct (contains f x ys) as [[|]| |]; simpl; try congruence.
  apply IH. intros x' Hin. apply Hf. now right.
Qed.

Lemma all_keys_total (f : loc -> loc -> outcome bool)
    (ka kb : list (string * loc)) (ks : list string) :
  (forall x, In x (map snd ka) -> forall y, f x y <> OutOfFuel) ->
  all_keys f ka kb ks <> OutOfFuel.
Proof.
  intros Hf. induction ks as [|k ks IH]; simpl; try discriminate.
  unfold getitem.
  destruct (lookup k ka) as [x|] eqn:Ex; simpl; [|discriminate].
  destruct (lookup k kb) as [y|]; simpl; [|discriminate].
  pose proof (Hf x (lookup_in_values _ _ _ Ex) y) as Hx.
  destruct (f x y) as [[|]| |]; simpl; congruence.
Qed.

Lemma py_eq_step_total (f : loc -> loc -> outcome bool) (a b : loc) :
  (forall x, In x (children (h a)) -> forall y, f x y <> OutOfFuel) ->
  py_eq_step h f a b <> OutOfFuel.
Proof.
  intros Hf. unfold py_eq_step. fold (item_of h f).
  assert (Hi : forall x, In x (children (h a)) ->
                         forall y, item_of h f x y <> OutOfFuel).
  { intros x Hin y. unfold item_of.
    destruct (py_is h x y); [discriminate|]. now apply Hf. }
  destruct (h a), (h b); simpl in Hi; try discriminate;
    try (destruct (to_num _); discriminate);
    match goal with
    | |- context [Nat.eqb ?x ?y] => destruct (Nat.eqb x y); try discriminate
    end.
  - now apply all_zip_total.
  - now apply all_zip_total.
  - now apply dict_entries_eq_total.
  - now apply subset_total.
Qed.

(** A depth above the rank of the left operand is enough for [==]. *)
Lemma py_eq_total (n : nat) :
  forall a b, rank a < n -> py_eq h n a b <> OutOfFuel.
Proof.
  induction n as [|n IH]; intros a b Hr; [lia|].
  simpl. apply py_eq_step_total. intros x Hin y.
  apply IH. apply rank_decreases in Hin. lia.
Qed.

Lemma object_is_total (n : nat) (a b : loc) :
  rank a < n -> object_is h n a b <> OutOfFuel.
Proof.
  intros Hr. unfold object_is.
  destruct (py_is h a b); [discriminate|].
  destruct (is_float (h a) && is_float (h b) && float_isnan (h a)
            && float_isnan (h b)); [discriminate|].
  destruct (eq_int_literal (h a) 0 && eq_int_literal (h b) 0).
  - destruct (one_over_is_positive (h a)) as [pa| |] eqn:Ea;
      simpl; try discriminate.
    + destruct (one_over_is_positive (h b)) as [pb| |] eqn:Eb;
        simpl; try discriminate.
      * destruct (negb (Bool.eqb pa pb)); [discriminate|].
        now apply py_eq_total.
      * destruct (h b) as [|[|]|z|f| | | | | | |]; simpl in Eb;
          try discriminate.
        -- destruct (z =? 0)%Z; discriminate.
        -- destruct (SFeqb f float_zero); discriminate.
    + destruct (h a) as [|[|]|z|f| | | | | | |]; simpl in Ea;
        try discriminate.
      * destruct (z =? 0)%Z; discriminate.
      * destruct (SFeqb f float_zero); discriminate.
  - now apply py_eq_total.
Qed.

(** And one more level is enough for [is_deep_equal]. *)
Lemma is_deep_equal_total (n : nat) :
  forall a b, rank a < n -> is_deep_equal h (S n) a b <> OutOfFuel.
Proof.
  induction n as [|n IH]; intros a b Hr; [lia|].
  change (is_deep_equal_step h (S n) (is_deep_equal h (S n)) a b
          <> OutOfFuel).
  unfold is_deep_equal_step.
  pose proof (object_is_total (S n) a b Hr) as Ho.
  pose proof (py_eq_total (S n) a b Hr) as He.
  assert (Hc : forall x, In x (children (h a)) ->
                         forall y, is_deep_equal h (S n) x y <> OutOfFuel).
  { intros x Hin y. apply IH. apply rank_decreases in Hin. lia. }
  destruct (object_is h (S n) a b) as [[|]| |]; simpl; try congruence.
  destruct (negb (pytype_eqb (type_of (h a)) (type_of (h b))));
    [discriminate|].
  destruct (h a) as [| | | | | |xs|xs|ka| |c da]; simpl in Hc; trivial.
  - destruct (negb _); [discriminate|]. now apply all_zip_total.
  - destruct (negb _); [discriminate|]. now apply all_zip_total.
  - destruct (negb _); [discriminate|]. now apply all_keys_total.
  - apply Hc. now left.
Qed.

End Termination.

(** On an acyclic store [is_deep_equal] terminates: from some depth on
    it gives one and the same answer, which is [True], [False] or the
    [ZeroDivisionError] of [object_is]. *)
Theorem is_deep_equal_terminates (h : heap) (a b : loc) :
  acyclic h ->
  exists n r,
    (forall m, n <= m -> is_deep_equal h m a b = r) /\
    (r = Ret true \/ r = Ret false \/ exists msg, r = Raise (zero_division msg)).
Proof.
  intros [rank Hrank].
  pose proof (is_deep_equal_total h rank Hrank (S (rank a)) a b
                (Nat.lt_succ_diag_r _)) as Hn.
  exists (S (S (rank a))), (is_deep_equal h (S (S (rank a))) a b). split.
  - intros m Hm. now apply is_deep_equal_mono_le.
  - destruct (is_deep_equal h (S (S (rank a))) a b) as [[|]|e|] eqn:E;
      [tauto | tauto | | congruence].
    right; right. apply is_deep_equal_raise in E as [msg ->]. now exists msg.
Qed.

Lemma sample_acyclic : acyclic sample.
Proof.
  exists sample_rank. intros l c.
  do 18 (destruct l as [|l];
         [simpl; intuition (subst; simpl; lia)|]).
  simpl. tauto.
Qed.

Lemma sample_dicts_wf : dicts_wf sample.
Proof.
  intros l kvs.
  do 18 (destruct l as [|l];
         [simpl; try discriminate; intros [= <-]; simpl;
          repeat constructor; simpl; intuition discriminate|]).
  discriminate.
Qed.

(** C10 (code defect): on acyclic inputs [is_deep_equal] is to
    terminate with a boolean.  It does terminate, but on the floats
    [0.0] and [-0.0] of an acyclic store the answer is a
    [ZeroDivisionError], at every depth. *)
Theorem is_deep_equal_signed_zero_raises :
  acyclic sample /\
  forall fuel,
    is_deep_equal sample (S fuel) 3 4
    = Raise (zero_division "float division by zero").
Proof. split; [exact sample_acyclic | reflexivity]. Qed.

(** ** Deep equality of mappings *)

Section Mappings.

Variable h : heap.
Hypothesis wf : dicts_wf h.

Lemma all_zip_true (f : loc -> loc -> outcome bool) (xs ys : list loc) :
  all_zip f xs ys = Ret true ->
  forall i x y,
    nth_error xs i = Some x -> nth_error ys i = Some y -> f x y = Ret true.
Proof.
  revert ys. induction xs as [|x0 xs IH]; intros [|y0 ys] H i x y Hx Hy;
    try (destruct i; discriminate).
  simpl in H. apply bind_ret in H as (r & Hr & H).
  destruct r; [|discriminate].
  destruct i as [|i]; simpl in Hx, Hy.
  - now injection Hx as <-; injection Hy as <-.
  - eapply IH; eauto.
Qed.

Lemma dict_entries_eq_true (f : loc -> loc -> outcome bool)
    (kvs other : list (string * loc)) :
  dict_entries_eq f kvs other = Ret true ->
  forall k v, In (k, v) kvs ->
    exists w, lookup k other = Some w /\ f v w = Ret true.
Proof.
  induction kvs as [|[k0 v0] kvs IH]; simpl; intros H k v Hin; [tauto|].
  destruct (lookup k0 other) as [w|] eqn:E; [|discriminate].
  apply bind_ret in H as (r & Hr & H). destruct r; [|discriminate].
  destruct Hin as [[= <- <-]|Hin]; [eauto|]. now apply IH.
Qed.

Lemma all_keys_true (f : loc -> loc -> outcome bool)
    (ka kb : list (string * loc)) (ks : list string) :
  all_keys f ka kb ks = Ret true ->
  forall k, In k ks ->
    exists x y,
      lookup k ka = Some x /\ lookup k kb = Some y /\ f x y = Ret true.
Proof.
  induction ks as [|k0 ks IH]; simpl; intros H k Hin; [tauto|].
  unfold getitem in H.
  destruct (lookup k0 ka) as [x|] eqn:Ea; [|discriminate].
  destruct (lookup k0 kb) as [y|] eqn:Eb; [|discriminate].
  simpl in H. apply bind_ret in H as (r & Hr & H).
  destruct r; [|discriminate].
  destruct Hin as [<-|Hin]; [|now apply IH].
  exists x, y. auto.
Qed.

(** Natively equal mappings have the same key set. *)
Lemma py_eq_dict_keys (n : nat) (a b : loc) (ka kb : list (string * loc)) :
  h a = ODict ka -> h b = ODict kb ->
  py_eq h n a b = Ret true -> same_keys ka kb.
Proof.
  intros Ha Hb. destruct n as [|n]; [discriminate|].
  simpl. unfold py_eq_step. rewrite Ha, Hb.
  destruct (Nat.eqb (List.length ka) (List.length kb)) eqn:El;
    [|discriminate].
  apply Nat.eqb_eq in El. intros H.
  assert (Hincl : incl (keys ka) (keys kb)).
  { intros k Hk. unfold keys in Hk. apply in_map_iff in Hk as ([k' v] & <- & Hin).
    destruct (dict_entries_eq_true _ _ _ H _ _ Hin) as (w & Hw & _).
    eapply lookup_in_keys; eauto. }
  intros k. split; [apply Hincl|].
  apply (NoDup_length_incl (wf a ka Ha)); [|exact Hincl].
  unfold keys. rewrite !length_map. lia.
Qed.

Lemma key_mismatch_irrefl (a b : loc) : key_mismatch h a b -> a <> b.
Proof.
  induction 1 as [a b ka kb Ha Hb Hk
                 |a b xs ys i x y Ha Hb Hx Hy _ IH
                 |a b xs ys i x y Ha Hb Hx Hy _ IH
                 |a b ka kb k x y Ha Hb Hx Hy _ IH
                 |a b c da db Ha Hb _ IH];
    intros ->; rewrite Ha in Hb.
  - injection Hb as <-. now rewrite same_key_set_refl in Hk.
  - injection Hb as <-. apply IH. congruence.
  - injection Hb as <-. apply IH. congruence.
  - injection Hb as <-. apply IH. congruence.
  - injection Hb as <-. now apply IH.
Qed.

Lemma key_mismatch_shape (a b : loc) :
  key_mismatch h a b ->
  to_num (h a) = None /\ is_float (h a) = false /\
  (forall c, py_is h a c = Nat.eqb a c).
Proof.
  intros H. unfold py_is.
  destruct H as [a b ? ? Ha|a b ? ? ? ? ? Ha|a b ? ? ? ? ? Ha
                |a b ? ? ? ? ? Ha|a b ? ? ? Ha];
    rewrite Ha; repeat split; intros; apply orb_false_r.
Qed.

Lemma key_mismatch_not_is (a b : loc) :
  key_mismatch h a b -> py_is h a b = false.
Proof.
  intros H. destruct (key_mismatch_shape a b H) as (_ & _ & ->).
  apply Nat.eqb_neq. now apply key_mismatch_irrefl.
Qed.

(** Native equality never holds across a key-set mismatch. *)
Lemma key_mismatch_not_eq (a b : loc) :
  key_mismatch h a b -> forall n, py_eq h n a b <> Ret true.
Proof.
  induction 1 as [a b ka kb Ha Hb Hk
                 |a b xs ys i x y Ha Hb Hx Hy Hm IH
                 |a b xs ys i x y Ha Hb Hx Hy Hm IH
                 |a b ka kb k x y Ha Hb Hx Hy Hm IH
                 |a b c da db Ha Hb Hm IH];
    intros [|n]; try discriminate; simpl; unfold py_eq_step.
  - intros H.
    assert (Hs : same_keys ka kb).
    { eapply (py_eq_dict_keys (S n)); eauto. }
    apply same_key_set_spec in Hs. congruence.
  - rewrite Ha, Hb. destruct (Nat.eqb _ _); [|discriminate].
    intros H. pose proof (all_zip_true _ _ _ H i x y Hx Hy) as Hxy.
    unfold item_of in Hxy. rewrite (key_mismatch_not_is _ _ Hm) in Hxy.
    now apply IH in Hxy.
  - rewrite Ha, Hb. destruct (Nat.eqb _ _); [|discriminate].
    intros H. pose proof (all_zip_true _ _ _ H i x y Hx Hy) as Hxy.
    unfold item_of in Hxy. rewrite (key_mismatch_not_is _ _ Hm) in Hxy.
    now apply IH in Hxy.
  - rewrite Ha, Hb. destruct (Nat.eqb _ _); [|discriminate].
    intros H.
    destruct (dict_entries_eq_true _ _ _ H k x (lookup_some_in _ _ _ Hx))
      as (w & Hw & Hxy).
    rewrite Hy in Hw. injection Hw as <-.
    unfold item_of in Hxy. rewrite (key_mismatch_not_is _ _ Hm) in Hxy.
    now apply IH in Hxy.
  - rewrite Ha, Hb. intros [= H].
    rewrite (key_mismatch_not_is a b) in H; [discriminate|].
    eapply KM_inst; eauto.
Qed.

Lemma key_mismatch_not_object_is (a b : loc) :
  key_mismatch h a b -> forall n, object_is h n a b <> Ret true.
Proof.
  intros Hm n. unfold object_is.
  rewrite (key_mismatch_not_is _ _ Hm).
  destruct (key_mismatch_shape _ _ Hm) as (Hnum & -> & _). simpl.
  unfold eq_int_literal. rewrite Hnum. simpl.
  now apply key_mismatch_not_eq.
Qed.

(** Nor does [is_deep_equal] ever answer [True] across one. *)
Lemma key_mismatch_not_deep_equal (a b : loc) :
  key_mismatch h a b -> forall n, is_deep_equal h n a b <> Ret true.
Proof.
  induction 1 as [a b ka kb Ha Hb Hk
                 |a b xs ys i x y Ha Hb Hx Hy Hm IH
                 |a b xs ys i x y Ha Hb Hx Hy Hm IH
                 |a b ka kb k x y Ha Hb Hx Hy Hm IH
                 |a b c da db Ha Hb Hm IH];
    intros [|n]; try discriminate; simpl; unfold is_deep_equal_step;
    intros H; apply bind_ret in H as (same & Hsame & H);
    (destruct same;
     [ eapply key_mismatch_not_object_is; [|exact Hsame];
       econstructor; eassumption |]);
    rewrite Ha, Hb in H; simpl in H;
    try (destruct (pytype_eqb _ _); simpl in H; [|discriminate]).
  - rewrite Hk in H. discriminate.
  - destruct (negb _); [discriminate|].
    apply (IH n). eapply all_zip_true; eauto.
  - destruct (negb _); [discriminate|].
    apply (IH n). eapply all_zip_true; eauto.
  - destruct (negb _); [discriminate|].
    destruct (all_keys_true _ _ _ _ H k (lookup_in_keys _ _ _ Hx))
      as (x' & y' & Hx' & Hy' & Hxy).
    apply (IH n). congruence.
  - now apply (IH n).
Qed.

End Mappings.

Section MappingResults.

Variable h : heap.
Hypothesis wf : dicts_wf h.
Variables (a b : loc) (ka kb : list (string * loc)).
Hypothesis Ha : h a = ODict ka.
Hypothesis Hb : h b = ODict kb.

(** On a mapping the fast path of [is_deep_equal] is identity or
    native equality. *)
Lemma object_is_dict (n : nat) :
  object_is h n a b = if Nat.eqb a b then Ret true else py_eq h n a b.
Proof.
  unfold object_is, py_is. rewrite Ha. simpl. rewrite orb_false_r.
  reflexivity.
Qed.

Lemma is_deep_equal_dict_keys (n : nat) :
  is_deep_equal h n a b = Ret true -> same_keys ka kb.
Proof.
  intros H. apply same_key_set_spec.
  destruct (same_key_set ka kb) eqn:E; [reflexivity|].
  exfalso. apply (key_mismatch_not_deep_equal h wf a b) with (n := n); auto.
  eapply KM_here; eauto.
Qed.

Lemma is_deep_equal_dict_mismatch (rank : loc -> nat) (m : nat) :
  (forall l c, In c (children (h l)) -> rank c < rank l) ->
  ~ same_keys ka kb -> rank a < m ->
  is_deep_equal h (S m) a b = Ret false.
Proof.
  intros Hrank Hk Hm.
  assert (Hset : same_key_set ka kb = false).
  { destruct (same_key_set ka kb) eqn:E; [|reflexivity].
    now apply same_key_set_spec in E. }
  assert (Hneq : Nat.eqb a b = false).
  { apply Nat.eqb_neq. intros ->. rewrite Ha in Hb. injection Hb as <-.
    now rewrite same_key_set_refl in Hset. }
  simpl. unfold is_deep_equal_step.
  rewrite object_is_dict, Hneq.
  pose proof (py_eq_total h rank Hrank m a b Hm) as Ht.
  destruct (py_eq h m a b) as [[|]|e|] eqn:E; simpl; try congruence.
  - apply (py_eq_dict_keys h wf m a b ka kb Ha Hb) in E. contradiction.
  - rewrite Ha, Hb. simpl. now rewrite Hset.
  - now apply py_eq_no_raise in E.
Qed.

Lemma all_keys_eventually (ks : list string) :
  same_keys ka kb ->
  (forall k x y, lookup k ka = Some x -> lookup k kb = Some y ->
                 deep_equal_returns h x y true) ->
  (forall k, In k ks -> In k (keys ka)) ->
  exists n, forall m, n <= m ->
    all_keys (is_deep_equal h m) ka kb ks = Ret true.
Proof.
  intros Hk Hv. induction ks as [|k ks IH]; intros Hin.
  - exists 0. reflexivity.
  - destruct IH as [n1 H1]; [intros k' Hk'; apply Hin; now right|].
    pose proof (Hin k (or_introl eq_refl)) as Hka.
    destruct (in_keys_lookup _ _ Hka) as [x Hx].
    destruct (in_keys_lookup k kb) as [y Hy]; [now apply Hk|].
    destruct (Hv k x y Hx Hy) as [n2 H2].
    exists (Nat.max n1 n2). intros m Hm. simpl. unfold getitem.
    rewrite Hx, Hy. simpl. rewrite H2 by lia. simpl. apply H1. lia.
Qed.

Lemma is_deep_equal_dict_values (rank : loc -> nat) :
  (forall l c, In c (children (h l)) -> rank c < rank l) ->
  same_keys ka kb ->
  (forall k x y, lookup k ka = Some x -> lookup k kb = Some y ->
                 deep_equal_returns h x y true) ->
  deep_equal_returns h a b true.
Proof.
  intros Hrank Hk Hv.
  destruct (all_keys_eventually (keys ka) Hk Hv) as [n Hn]; [auto|].
  exists (S (Nat.max n (S (rank a)))). intros [|m] Hm; [lia|].
  simpl. unfold is_deep_equal_step. rewrite object_is_dict.
  destruct (Nat.eqb a b); [reflexivity|].
  assert (Hr : rank a < m) by lia.
  pose proof (py_eq_total h rank Hrank m a b Hr) as Ht.
  destruct (py_eq h m a b) as [[|]|e|] eqn:E; simpl; try congruence.
  - rewrite Ha, Hb. simpl.
    apply same_key_set_spec in Hk. rewrite Hk. simpl. apply Hn. lia.
  - now apply py_eq_no_raise in E.
Qed.

Lemma is_deep_equal_dict_values_inv :
  deep_equal_returns h a b true ->
  (forall n, object_is h n a b <> Ret true) ->
  forall k x y, lookup k ka = Some x -> lookup k kb = Some y ->
                deep_equal_returns h x y true.
Proof.
  intros [n Hn] Hfast k x y Hx Hy. exists n. intros m Hm.
  assert (H : is_deep_equal h (S m) a b = Ret true) by (apply Hn; lia).
  simpl in H. unfold is_deep_equal_step in H.
  apply bind_ret in H as (same & Hsame & H).
  destruct same; [now apply Hfast in Hsame|].
  rewrite Ha, Hb in H. simpl in H.
  destruct (negb _); [discriminate|].
  destruct (all_keys_true _ _ _ _ H k (lookup_in_keys _ _ _ Hx))
    as (x' & y' & Hx' & Hy' & Hxy).
  congruence.
Qed.

End MappingResults.

(** A key-set mismatch below the top level: the enclosing comparison
    ends in [False], or in the [ZeroDivisionError] of [object_is] when
    an earlier pair of items runs into it. *)
Lemma key_mismatch_result (h : heap) (c d : loc) :
  acyclic h -> dicts_wf h -> key_mismatch h c d ->
  exists n r,
    (forall m, n <= m -> is_deep_equal h m c d = r) /\
    (r = Ret false \/ exists msg, r = Raise (zero_division msg)).
Proof.
  intros Hacyc Hwf Hm.
  destruct (is_deep_equal_terminates h c d Hacyc) as (n & r & Hn & Hr).
  exists n, r. split; [exact Hn|].
  destruct Hr as [->|[->|Hr]]; [|now left|now right].
  exfalso. apply (key_mismatch_not_deep_equal h Hwf c d Hm n).
  now apply Hn.
Qed.

Lemma sample_mappings_equal : deep_equal_returns sample 7 8 true.
Proof.
  exists 3. intros m Hm.
  rewrite (is_deep_equal_mono_le sample 3 m 7 8 Hm); [reflexivity|].
  discriminate.
Qed.

(** What holds of the deep equality of two mappings.  It holds only
    between equal key sets, whatever the order of the entries;
    mappings with different key sets compare [False]; with equal key
    sets the mappings are deep-equal when the values under every key
    are, and, apart from the fast path of [object_is], only then; a
    key-set mismatch at any depth of the recursion keeps the result
    from being [True]; and [{a: 1, b: 2}] is deep-equal to
    [{b: 2, a: 1}]. *)
Theorem mapping_deep_equality (h : heap) (a b : loc)
    (ka kb : list (string * loc)) :
  acyclic h -> dicts_wf h -> h a = ODict ka -> h b = ODict kb ->
  (deep_equal_returns h a b true -> same_keys ka kb) /\
  (~ same_keys ka kb -> deep_equal_returns h a b false) /\
  (same_keys ka kb ->
   (forall k x y, lookup k ka = Some x -> lookup k kb = Some y ->
                  deep_equal_returns h x y true) ->
   deep_equal_returns h a b true) /\
  (deep_equal_returns h a b true ->
   (forall n, object_is h n a b <> Ret true) ->
   forall k x y, lookup k ka = Some x -> lookup k kb = Some y ->
                 deep_equal_returns h x y true) /\
  (forall c d, key_mismatch h c d ->
     exists n r,
       (forall m, n <= m -> is_deep_equal h m c d = r) /\
       (r = Ret false \/ exists msg, r = Raise (zero_division msg))) /\
  deep_equal_returns sample 7 8 true.
Proof.
  intros Hacyc Hwf Ha Hb.
  split; [|split; [|split; [|split; [|split]]]].
  - intros [n Hn]. eapply is_deep_equal_dict_keys; eauto.
  - intros Hk. destruct Hacyc as [rank Hrank].
    exists (S (S (rank a))). intros [|m] Hm; [lia|].
    eapply is_deep_equal_dict_mismatch; eauto. lia.
  - intros Hk Hv. destruct Hacyc as [rank Hrank].
    eapply is_deep_equal_dict_values; eauto.
  - intros Hr Hfast. eapply is_deep_equal_dict_values_inv; eauto.
  - intros c d Hm. now apply key_mismatch_result.
  - exact sample_mappings_equal.
Qed.

Lemma mapping_deep_equality_witness :
  deep_equal_returns sample 7 8 true /\
  same_keys [("a", 1); ("b", 2)] [("b", 10); ("a", 9)] /\
  deep_equal_returns sample 7 12 false.
Proof.
  destruct (mapping_deep_equality sample 7 8 _ _ sample_acyclic
              sample_dicts_wf eq_refl eq_refl) as (H1 & _ & H3 & _).
  destruct (mapping_deep_equality sample 7 12 _ _ sample_acyclic
              sample_dicts_wf eq_refl eq_refl) as (_ & H2 & _).
  assert (Hk : same_keys [("a", 1); ("b", 2)] [("b", 10); ("a", 9)]).
  { intros k. simpl. tauto. }
  split; [|split; [exact Hk|]].
  - apply H3; [exact Hk|].
    intros k x y. simpl.
    destruct (String.eqb k "a") eqn:Ea.
    + apply String.eqb_eq in Ea. subst k. simpl.
      intros [= <-] [= <-]. exists 2. intros m Hm.
      rewrite (is_deep_equal_mono_le sample 2 m 1 9 Hm);
        [reflexivity|discriminate].
    + destruct (String.eqb k "b") eqn:Eb; [|discriminate].
      intros [= <-] [= <-]. exists 2. intros m Hm.
      rewrite (is_deep_equal_mono_le sample 2 m 2 10 Hm);
        [reflexivity|discriminate].
  - apply H2. intros Hs. destruct (Hs "b") as [Hs' _].
    simpl in Hs'. intuition discriminate.
Defined.

(** Two nested mismatches of the sample store: [[1, {a: 1, b: 2}]]
    against [[1, {a: 1}]] compares [False]; behind a pair of zeros of
    opposite sign the comparison raises before it reaches the
    mappings. *)
Lemma nested_mismatch_examples :
  key_mismatch sample 13 14 /\
  (forall n, is_deep_equal sample (4 + n) 13 14 = Ret false) /\
  key_mismatch sample 15 16 /\
  (forall n,
      is_deep_equal sample (3 + n) 15 16
      = Raise (zero_division "float division by zero")).
Proof.
  assert (Hm : key_mismatch sample 7 12).
  { eapply KM_here; reflexivity. }
  split; [|split; [|split]].
  - eapply (KM_list sample 13 14 _ _ 1); try reflexivity. exact Hm.
  - intros n. reflexivity.
  - eapply (KM_list sample 15 16 _ _ 1); try reflexivity. exact Hm.
  - intros n. reflexivity.
Qed.

Lemma nested_acyclic : acyclic nested.
Proof.
  exists nested_rank. intros l c.
  do 10 (destruct l as [|l];
         [simpl; intuition (subst; simpl; lia)|]).
  simpl. tauto.
Qed.

Lemma nested_dicts_wf : dicts_wf nested.
Proof.
  intros l kvs.
  do 10 (destruct l as [|l];
         [simpl; try discriminate; intros [= <-]; simpl;
          repeat constructor; simpl; intuition discriminate|]).
  discriminate.
Qed.

(** C7 (code defect): a key-set mismatch at any level of the recursion
    is to yield [False], and mappings with one key set are to be
    compared by deep-comparing the values under each key.  In an
    acyclic store, [{x: 0.0, y: {a: 1}}] against [{x: -0.0, y: {b: 1}}]
    has the key sets [{a}] and [{b}] under [y]; the pair under [x] is
    compared first and [object_is] raises its [ZeroDivisionError], so
    at no depth the answer is [False].  And [{x: 0.0}] against
    [{x: -0.0}] is answered [True] by the native [==] of [object_is],
    while the deep comparison of the two values under [x] raises. *)
Theorem nested_key_mismatch_raises :
  acyclic nested /\ dicts_wf nested /\
  key_mismatch nested 6 7 /\
  (forall n,
      is_deep_equal nested (3 + n) 6 7
      = Raise (zero_division "float division by zero")) /\
  (forall fuel, is_deep_equal nested fuel 6 7 <> Ret false) /\
  (forall n, is_deep_equal nested (3 + n) 8 9 = Ret true) /\
  (forall n,
      is_deep_equal nested (1 + n) 1 2
      = Raise (zero_division "float division by zero")).
Proof.
  split; [exact nested_acyclic|].
  split; [exact nested_dicts_wf|].
  split; [|split; [|split; [|split]]].
  - eapply (KM_dict nested 6 7 _ _ "y"); try reflexivity.
    eapply KM_here; reflexivity.
  - intros n. reflexivity.
  - intros [|[|[|n]]]; discriminate.
  - intros n. reflexivity.
  - intros n. reflexivity.
Qed.

(** ** What holds besides *)

(** Deep equality terminates on acyclic stores: from some recursion
    depth on [is_deep_equal] gives one answer, [True], [False] or the
    [ZeroDivisionError] raised by [object_is]. *)
Theorem deep_equality_terminates (h : heap) (a b : loc) :
  acyclic h ->
  exists n r,
    (forall m, n <= m -> is_deep_equal h m a b = r) /\
    (r = Ret true \/ r = Ret false \/ exists msg, r = Raise (zero_division msg)).
Proof. apply is_deep_equal_terminates. Qed.

Lemma deep_equality_terminates_witness :
  exists n r,
    (forall m, n <= m -> is_deep_equal sample m 13 14 = r) /\
    (r = Ret true \/ r = Ret false \/ exists msg, r = Raise (zero_division msg)).
Proof. exact (deep_equality_terminates sample 13 14 sample_acyclic). Defined.

(** [throws] re-raises the original error when a truthy expectation
    that is a class, a predicate or a property map rejects it. *)
Theorem throws_reraises_original (h : heap) (fuel : nat) (e : exn)
    (expected : expectation) (msg : message) :
  isinstance_exn e Exception = true ->
  shift_message expected msg = (msg, expected) ->
  expectation_truthy expected = true ->
  test_error h fuel e expected msg "throws" = Ret false ->
  throws h fuel (Raise e) expected msg = Raise e.
Proof. apply throws_reraises_unmatched. Qed.

Lemma throws_reraises_original_witness :
  throws sample 0 raises_value_error (EClass KeyError) MNone
  = Raise value_error_abc.
Proof.
  apply (throws_reraises_original sample 0 value_error_abc (EClass KeyError)
           MNone); reflexivity.
Defined.

(** The constructor of [AssertError] sets [generated_message] exactly
    when it is given no message (the flag defaults to [False]). *)
Theorem AssertError_generated_message (h : heap)
    (py_str py_repr : loc -> string) (py_repr_str : string -> string)
    (actual expected : loc) (operator s : string) :
  ae_generated_message
    (AssertError_init h py_str py_repr py_repr_str None actual expected
       operator false) = true /\
  ae_generated_message
    (AssertError_init h py_str py_repr py_repr_str (Some s) actual expected
       operator false) = false.
Proof. split; reflexivity. Qed.

(** Deep equality is reflexive on references: [is_deep_equal(x, x)]
    is [True] for every object, nested or not, cyclic or not. *)
Theorem is_deep_equal_reflexive (h : heap) (fuel : nat) (x : loc) :
  is_deep_equal h (S fuel) x x = Ret true.
Proof.
  simpl. unfold is_deep_equal_step. now rewrite object_is_same.
Qed.

(** * The rest of the module *)

(** ** What [object_is] answers *)

Lemma object_is_false_eq (h : heap) (n : nat) (a b : loc) :
  object_is h n a b = Ret false -> py_eq h n a b = Ret false.
Proof.
  unfold object_is.
  destruct (py_is h a b); [discriminate|].
  destruct (is_float (h a) && is_float (h b) && float_isnan (h a)
            && float_isnan (h b)); [discriminate|].
  destruct (eq_int_literal (h a) 0) eqn:Ha; simpl; [|auto].
  destruct (eq_int_literal (h b) 0); [|auto].
  destruct (one_over_zero _ Ha) as [msg ->]. discriminate.
Qed.

Lemma object_is_true_inv (h : heap) (n : nat) (a b : loc) :
  object_is h n a b = Ret true ->
  py_is h a b = true \/
  (h a = OFloat S754_nan /\ h b = OFloat S754_nan) \/
  py_eq h n a b = Ret true.
Proof.
  unfold object_is.
  destruct (py_is h a b); [now left|].
  destruct (is_float (h a) && is_float (h b) && float_isnan (h a)
            && float_isnan (h b)) eqn:Hnan.
  - intros _. right; left.
    apply andb_prop in Hnan as [Hnan Hb]. apply andb_prop in Hnan as [_ Ha].
    destruct (h a) as [| | |[]| | | | | | |], (h b) as [| | |[]| | | | | | |];
      try discriminate. now split.
  - destruct (eq_int_literal (h a) 0) eqn:Ha; simpl; [|auto].
    destruct (eq_int_literal (h b) 0); [|auto].
    destruct (one_over_zero _ Ha) as [msg ->]. discriminate.
Qed.

(** [object_is] answers [False] only where [a == b] is [False], and
    [True] only for one object, two [nan] floats or [a == b]: the test
    for zeros of opposite sign never decides an answer. *)
Theorem object_is_follows_native_equality (h : heap) (n : nat) (a b : loc) :
  (object_is h n a b = Ret false -> py_eq h n a b = Ret false) /\
  (object_is h n a b = Ret true ->
   py_is h a b = true \/
   (h a = OFloat S754_nan /\ h b = OFloat S754_nan) \/
   py_eq h n a b = Ret true).
Proof. split; [apply object_is_false_eq | apply object_is_true_inv]. Qed.

(** Two operands that both compare equal to [0] and are not one
    object make [object_is] raise [ZeroDivisionError], whatever their
    types and signs. *)
Theorem object_is_raises_on_zeros (h : heap) (fuel : nat) (a b : loc) :
  py_is h a b = false ->
  eq_int_literal (h a) 0 = true -> eq_int_literal (h b) 0 = true ->
  exists e,
    object_is h fuel a b = Raise e /\ exn_cls e = ZeroDivisionError.
Proof.
  intros Hid Ha Hb.
  destruct (object_is_zero_raises h fuel a b Hid Ha Hb) as [msg H].
  exists (zero_division msg). now split.
Qed.

Lemma object_is_raises_on_zeros_witness :
  exists e, object_is zoo 0 4 5 = Raise e /\ exn_cls e = ZeroDivisionError.
Proof. apply (object_is_raises_on_zeros zoo 0 4 5); reflexivity. Defined.

(** On two numbers that are not one object and not both zero,
    [object_is] is numeric equality across [bool], [int] and [float]
    (with [nan] the same as [nan]): [1], [1.0] and [True] are all the
    same value. *)
Theorem object_is_on_numbers (h : heap) (fuel : nat) (a b : loc) (x y : num) :
  to_num (h a) = Some x -> to_num (h b) = Some y ->
  py_is h a b = false ->
  eq_int_literal (h a) 0 && eq_int_literal (h b) 0 = false ->
  object_is h (S fuel) a b
  = Ret (num_eqb x y || (float_isnan (h a) && float_isnan (h b))).
Proof.
  intros Hx Hy Hid Hz. unfold object_is. rewrite Hid, Hz.
  assert (Heq : py_eq h (S fuel) a b = Ret (num_eqb x y)).
  { simpl. unfold py_eq_step.
    destruct (h a) as [|p|z|f| | | | | | |], (h b) as [|q|w|g| | | | | | |];
      simpl in Hx, Hy; try discriminate;
      injection Hx as <-; injection Hy as <-; reflexivity. }
  destruct (is_float (h a) && is_float (h b) && float_isnan (h a)
            && float_isnan (h b)) eqn:Hn.
  - apply andb_prop in Hn as [Hn Hb]. apply andb_prop in Hn as [_ Ha].
    now rewrite Ha, Hb, orb_true_r.
  - rewrite Heq. f_equal.
    destruct (float_isnan (h a) && float_isnan (h b)) eqn:Hab;
      [|now rewrite orb_false_r].
    apply andb_prop in Hab as [Ha Hb]. rewrite Ha, Hb in Hn.
    destruct (h a) as [| | |f| | | | | | |], (h b) as [| | |g| | | | | | |];
      discriminate.
Qed.

Lemma object_is_on_numbers_witness :
  object_is zoo 1 1 2 = Ret true /\ object_is zoo 1 3 1 = Ret true.
Proof.
  split.
  - apply (object_is_on_numbers zoo 0 1 2 (NInt 1) (NFloat float_one));
      reflexivity.
  - apply (object_is_on_numbers zoo 0 3 1 (NInt 1) (NInt 1)); reflexivity.
Defined.

(** ** When the assertions pass *)

Lemma raise_AssertionError_not_ret (A : Type) (k : string * arg)
    (kwargs : list (string * arg)) (r : A) :
  raise_AssertionError (k :: kwargs) <> Ret r.
Proof. discriminate. Qed.

Lemma fail_comparison_not_ret (actual expected : loc) (msg : message)
    (operator fn : string) (r : unit) :
  fail_comparison actual expected msg operator fn <> Ret r.
Proof.
  unfold fail_comparison. destruct msg as [|s|e|p]; try discriminate.
  destruct (isinstance_exn e Exception); discriminate.
Qed.

Section Passing.

Variable h : heap.
Variables (fuel : nat) (actual expected : loc) (msg : message).

Ltac by_answer :=
  split;
  match goal with
  | |- context [object_is ?h ?n ?a ?b] =>
      destruct (object_is h n a b) as [[|]| |]
  | |- context [is_deep_equal ?h ?n ?a ?b] =>
      destruct (is_deep_equal h n a b) as [[|]| |]
  end;
  simpl; intros H; try reflexivity; try discriminate;
  now apply fail_comparison_not_ret in H.

Lemma equal_passes :
  equal h fuel actual expected msg = Ret tt
  <-> object_is h fuel actual expected = Ret true.
Proof. unfold equal. by_answer. Qed.

Lemma not_equal_passes :
  not_equal h fuel actual expected msg = Ret tt
  <-> object_is h fuel actual expected = Ret false.
Proof. unfold not_equal. by_answer. Qed.

Lemma deep_equal_passes :
  deep_equal h fuel actual expected msg = Ret tt
  <-> is_deep_equal h fuel actual expected = Ret true.
Proof. unfold deep_equal. by_answer. Qed.

Lemma not_deep_equal_passes :
  not_deep_equal h fuel actual expected msg = Ret tt
  <-> is_deep_equal h fuel actual expected = Ret false.
Proof. unfold not_deep_equal. by_answer. Qed.

End Passing.

(** Strict equality is the stronger assertion: where [equal] passes,
    [deep_equal] passes one level of recursion deeper, and where
    [not_deep_equal] passes, [not_equal] passes. *)
Theorem strict_assertions_are_stronger (h : heap) (fuel : nat)
    (actual expected : loc) (msg msg' : message) :
  (equal h fuel actual expected msg = Ret tt ->
   deep_equal h (S fuel) actual expected msg' = Ret tt) /\
  (not_deep_equal h (S fuel) actual expected msg = Ret tt ->
   not_equal h fuel actual expected msg' = Ret tt).
Proof.
  split.
  - intros H. apply deep_equal_passes. apply equal_passes in H.
    simpl. unfold is_deep_equal_step. now rewrite H.
  - intros H. apply not_equal_passes. apply not_deep_equal_passes in H.
    simpl in H. unfold is_deep_equal_step in H.
    destruct (object_is h fuel actual expected) as [[|]| |];
      simpl in H; try discriminate. reflexivity.
Qed.

Lemma assert__passes (h : heap) (value : loc) (msg : message) :
  assert_ h value msg = Ret tt <-> truthy (h value) = true.
Proof.
  unfold assert_. destruct (truthy (h value)); simpl; [tauto|].
  split; [|discriminate].
  destruct msg as [|s|e|p]; try discriminate.
  destruct (isinstance_exn e Exception); discriminate.
Qed.

Lemma if_error_passes (h : heap) (py_str py_repr : loc -> string)
    (py_repr_str : string -> string) (err : loc) :
  if_error h py_str py_repr py_repr_str err = Ret tt <-> h err = ONone.
Proof.
  unfold if_error. destruct (h err); split; try reflexivity; discriminate.
Qed.

Lemma fail_always_raises (msg : message) : exists e, fail msg = Raise e.
Proof.
  unfold fail. destruct msg as [|s|e|p]; try (eexists; reflexivity).
  destruct (isinstance_exn e Exception); eexists; reflexivity.
Qed.

(** When the assertions without a callable pass: [assert_] exactly
    for a truthy value, [if_error] exactly for [None], [fail] never;
    [equal] exactly when [object_is] answers [True] and [not_equal]
    exactly when it answers [False]; [deep_equal] and [not_deep_equal]
    likewise with [is_deep_equal].  The message never decides whether
    an assertion passes, and an assertion and its negation never both
    pass. *)
Theorem plain_assertions_pass (h : heap) (py_str py_repr : loc -> string)
    (py_repr_str : string -> string) (fuel : nat) (actual expected : loc)
    (msg : message) :
  (assert_ h actual msg = Ret tt <-> truthy (h actual) = true) /\
  (if_error h py_str py_repr py_repr_str actual = Ret tt
   <-> h actual = ONone) /\
  (exists e, fail msg = Raise e) /\
  (equal h fuel actual expected msg = Ret tt
   <-> object_is h fuel actual expected = Ret true) /\
  (not_equal h fuel actual expected msg = Ret tt
   <-> object_is h fuel actual expected = Ret false) /\
  (deep_equal h fuel actual expected msg = Ret tt
   <-> is_deep_equal h fuel actual expected = Ret true) /\
  (not_deep_equal h fuel actual expected msg = Ret tt
   <-> is_deep_equal h fuel actual expected = Ret false).
Proof.
  split; [apply assert__passes|].
  split; [apply if_error_passes|].
  split; [apply fail_always_raises|].
  split; [apply equal_passes|].
  split; [apply not_equal_passes|].
  split; [apply deep_equal_passes | apply not_deep_equal_passes].
Qed.

(** An error object passed as [message] is what a failing assertion
    raises, unchanged, provided it derives from [Exception]. *)
Theorem message_error_is_raised (h : heap) (fuel : nat) (a b : loc) (e : exn) :
  isinstance_exn e Exception = true ->
  (truthy (h a) = false -> assert_ h a (MExc e) = Raise e) /\
  (object_is h fuel a b = Ret false -> equal h fuel a b (MExc e) = Raise e) /\
  (object_is h fuel a b = Ret true ->
   not_equal h fuel a b (MExc e) = Raise e) /\
  fail (MExc e) = Raise e /\
  (is_deep_equal h fuel a b = Ret false ->
   deep_equal h fuel a b (MExc e) = Raise e) /\
  (is_deep_equal h fuel a b = Ret true ->
   not_deep_equal h fuel a b (MExc e) = Raise e).
Proof.
  intros He.
  unfold assert_, equal, not_equal, fail, deep_equal, not_deep_equal,
    fail_comparison.
  repeat split; try (intros ->; simpl); now rewrite He.
Qed.

Lemma message_error_is_raised_witness :
  equal zoo 1 1 8 (MExc value_error_abc) = Raise value_error_abc /\
  fail (MExc value_error_abc) = Raise value_error_abc.
Proof.
  destruct (message_error_is_raised zoo 1 1 8 value_error_abc eq_refl)
    as (_ & He & _ & Hf & _).
  split; [apply He; reflexivity | exact Hf].
Defined.

(** ** When [throws] and [does_not_throw] pass *)

(** [does_not_throw] returns normally exactly when the callable does.
    [throws] returns normally exactly when the callable raised an error
    derived from [Exception] and the expectation left after the shift
    of a text or pattern is falsy or accepted by the matcher; it never
    passes on a callable that returned. *)
Theorem throwing_assertions_pass (h : heap) (fuel : nat) (func : callable)
    (expected : expectation) (msg : message) :
  (does_not_throw h fuel func expected msg = Ret tt <-> func = Ret tt) /\
  (throws h fuel func expected msg = Ret tt <->
   exists err,
     func = Raise err /\ isinstance_exn err Exception = true /\
     (expectation_truthy (snd (shift_message expected msg)) = false \/
      test_error h fuel err (snd (shift_message expected msg))
        (fst (shift_message expected msg)) "throws" = Ret true)).
Proof.
  unfold does_not_throw, throws.
  destruct (shift_message expected msg) as [msg' expected']. simpl.
  split; split.
  - destruct func as [[]|e|]; try discriminate; [reflexivity|].
    destruct (isinstance_exn e Exception); [|discriminate].
    destruct (test_error h fuel e expected' msg' "does_not_throw")
      as [[|]| |]; discriminate.
  - now intros ->.
  - destruct func as [[]|e|]; try discriminate.
    destruct (isinstance_exn e Exception) eqn:He; [|discriminate].
    destruct (expectation_truthy expected') eqn:Ht.
    + destruct (test_error h fuel e expected' msg' "throws")
        as [[|]| |] eqn:Hm; try discriminate.
      intros _. exists e. auto.
    + intros _. exists e. auto.
  - intros (err & -> & -> & [->|H]); [reflexivity|].
    destruct (expectation_truthy expected'); [|reflexivity].
    now rewrite H.
Qed.

(** What the callable raises outside [Exception] (an interrupt, an
    exit) leaves [throws] and [does_not_throw] as it is, whatever the
    expectation. *)
Theorem non_errors_pass_through (h : heap) (fuel : nat) (e : exn)
    (expected : expectation) (msg : message) :
  isinstance_exn e Exception = false ->
  throws h fuel (Raise e) expected msg = Raise e /\
  does_not_throw h fuel (Raise e) expected msg = Raise e.
Proof.
  intros He. unfold throws, does_not_throw.
  destruct (shift_message expected msg) as [msg' expected'].
  now rewrite He.
Qed.

Lemma non_errors_pass_through_witness :
  throws sample 0 (Raise keyboard_interrupt) (EClass KeyboardInterrupt) MNone
  = Raise keyboard_interrupt /\
  does_not_throw sample 0 (Raise keyboard_interrupt) ENone MNone
  = Raise keyboard_interrupt.
Proof.
  split;
    [apply (non_errors_pass_through sample 0 keyboard_interrupt
              (EClass KeyboardInterrupt) MNone)
    |apply (non_errors_pass_through sample 0 keyboard_interrupt ENone MNone)];
    reflexivity.
Defined.

(** With a class derived from [Exception] as expectation, [throws]
    passes on an instance of the class (of a subclass too) and
    re-raises any other error. *)
Theorem throws_class_expectation (h : heap) (fuel : nat) (err : exn)
    (c : cls) (msg : message) :
  issubclass c Exception = true ->
  isinstance_exn err Exception = true ->
  throws h fuel (Raise err) (EClass c) msg
  = if isinstance_exn err c then Ret tt else Raise err.
Proof.
  intros Hc He. unfold throws. simpl. rewrite He. simpl. rewrite Hc. simpl.
  now destruct (isinstance_exn err c).
Qed.

Lemma throws_class_expectation_witness :
  throws sample 0 (Raise (zero_division "")) (EClass ArithmeticError) MNone
  = Ret tt /\
  throws sample 0 (Raise (zero_division "")) (EClass ValueError) MNone
  = Raise (zero_division "").
Proof.
  split;
    [apply (throws_class_expectation sample 0 (zero_division "")
              ArithmeticError MNone)
    |apply (throws_class_expectation sample 0 (zero_division "")
              ValueError MNone)];
    reflexivity.
Defined.

(** ** Where [is_deep_equal] descends and where it does not *)

Lemma pytype_eqb_eq (s t : pytype) : pytype_eqb s t = true <-> s = t.
Proof.
  unfold pytype_eqb. destruct (pytype_eq_dec s t); split; auto; discriminate.
Qed.

(** Unless the operands are two lists, two tuples, two mappings or two
    instances of one class, [is_deep_equal] gives the answer of
    [object_is] and nothing else: sets, byte strings and text are
    compared with [==] only, and objects of different types are
    deep-equal exactly when [object_is] holds of them. *)
Theorem is_deep_equal_without_descent (h : heap) (n : nat) (a b : loc) :
  recursed_into (h a) (h b) = false ->
  is_deep_equal h (S n) a b = object_is h n a b.
Proof.
  intros Hr. simpl. unfold is_deep_equal_step.
  destruct (object_is h n a b) as [[|]|e|] eqn:Ho; simpl; trivial.
  apply object_is_false_eq in Ho.
  destruct (pytype_eqb (type_of (h a)) (type_of (h b))) eqn:Et;
    simpl; [|reflexivity].
  apply pytype_eqb_eq in Et.
  destruct (h a) as [| | | | | |xs|xs|ka|xs|c da],
           (h b) as [| | | | | |ys|ys|kb|ys|c' db];
    simpl in Hr, Et; try discriminate; try exact Ho.
  injection Et as ->. now rewrite String.eqb_refl in Hr.
Qed.

Lemma is_deep_equal_without_descent_witness :
  is_deep_equal zoo 2 16 17 = object_is zoo 1 16 17 /\
  is_deep_equal zoo 2 9 10 = object_is zoo 1 9 10.
Proof.
  split;
    [apply (is_deep_equal_without_descent zoo 1 16 17)
    |apply (is_deep_equal_without_descent zoo 1 9 10)];
    reflexivity.
Defined.

(** Two objects other than numbers that are equal under [==] are
    deep-equal, without a look at their items: [[0.0]] and [[-0.0]]
    are, although the comparison of the items themselves raises. *)
Theorem native_equality_short_circuits (h : heap) (n : nat) (a b : loc) :
  to_num (h a) = None ->
  py_eq h n a b = Ret true ->
  is_deep_equal h (S n) a b = Ret true.
Proof.
  intros Hnum Heq. simpl. unfold is_deep_equal_step, object_is.
  destruct (py_is h a b); [reflexivity|].
  unfold eq_int_literal. rewrite Hnum.
  assert (Hf : is_float (h a) = false).
  { destruct (h a); try reflexivity; discriminate. }
  rewrite Hf. simpl. now rewrite Heq.
Qed.

Lemma native_equality_short_circuits_witness :
  is_deep_equal zoo 3 6 7 = Ret true /\
  is_deep_equal zoo 3 4 5 = Raise (zero_division "float division by zero").
Proof.
  split; [|reflexivity].
  apply (native_equality_short_circuits zoo 2 6 7); reflexivity.
Defined.

(** ** Deep equality of sequences *)

Section Sequences.

Variable h : heap.
Variables (a b : loc) (xs ys : list loc).
Hypothesis Hseq : seq_pair h a b xs ys.

Lemma seq_pair_object_is (n : nat) :
  object_is h n a b = if Nat.eqb a b then Ret true else py_eq h n a b.
Proof.
  unfold object_is, py_is.
  destruct Hseq as [[Ha Hb]|[Ha Hb]]; rewrite Ha; simpl;
    now rewrite orb_false_r.
Qed.

Lemma seq_pair_py_eq (n : nat) :
  py_eq h (S n) a b
  = if Nat.eqb (List.length xs) (List.length ys)
    then all_zip (item_of h (py_eq h n)) xs ys else Ret false.
Proof.
  simpl. unfold py_eq_step.
  destruct Hseq as [[Ha Hb]|[Ha Hb]]; now rewrite Ha, Hb.
Qed.

Lemma seq_pair_descent (n : nat) :
  object_is h n a b = Ret false ->
  is_deep_equal h (S n) a b
  = if Nat.eqb (List.length xs) (List.length ys)
    then all_zip (is_deep_equal h n) xs ys else Ret false.
Proof.
  intros Ho. simpl. unfold is_deep_equal_step. rewrite Ho. simpl.
  destruct Hseq as [[Ha Hb]|[Ha Hb]]; rewrite Ha, Hb; simpl;
    now destruct (Nat.eqb (List.length xs) (List.length ys)).
Qed.

Lemma seq_pair_same : a = b -> xs = ys.
Proof.
  intros ->. destruct Hseq as [[Ha Hb]|[Ha Hb]]; congruence.
Qed.

Lemma is_deep_equal_seq_length (n : nat) :
  is_deep_equal h n a b = Ret true -> List.length xs = List.length ys.
Proof.
  destruct n as [|n]; [discriminate|]. intros H.
  destruct (object_is h n a b) as [[|]|e|] eqn:Ho.
  - rewrite seq_pair_object_is in Ho.
    destruct (Nat.eqb a b) eqn:Eab.
    + apply Nat.eqb_eq in Eab. now rewrite (seq_pair_same Eab).
    + destruct n as [|n]; [discriminate|]. rewrite seq_pair_py_eq in Ho.
      destruct (Nat.eqb (List.length xs) (List.length ys)) eqn:El;
        [now apply Nat.eqb_eq|discriminate].
  - rewrite (seq_pair_descent n Ho) in H.
    destruct (Nat.eqb (List.length xs) (List.length ys)) eqn:El;
      [now apply Nat.eqb_eq|discriminate].
  - simpl in H. unfold is_deep_equal_step in H. rewrite Ho in H.
    discriminate.
  - simpl in H. unfold is_deep_equal_step in H. rewrite Ho in H.
    discriminate.
Qed.

Lemma is_deep_equal_seq_mismatch (n : nat) :
  List.length xs <> List.length ys ->
  is_deep_equal h (S (S n)) a b = Ret false.
Proof.
  intros Hl.
  assert (El : Nat.eqb (List.length xs) (List.length ys) = false)
    by now apply Nat.eqb_neq.
  assert (Ho : object_is h (S n) a b = Ret false).
  { rewrite seq_pair_object_is, seq_pair_py_eq, El.
    destruct (Nat.eqb a b) eqn:Eab; [|reflexivity].
    apply Nat.eqb_eq in Eab. now rewrite (seq_pair_same Eab) in Hl. }
  now rewrite (seq_pair_descent (S n) Ho), El.
Qed.

Lemma all_zip_eventually :
  forall us vs,
    (forall i x y, nth_error us i = Some x -> nth_error vs i = Some y ->
                   deep_equal_returns h x y true) ->
    exists n, forall m, n <= m ->
      all_zip (is_deep_equal h m) us vs = Ret true.
Proof.
  induction us as [|u us IH]; intros [|v vs] Hv;
    try (exists 0; reflexivity).
  destruct (IH vs) as [n1 H1].
  { intros i x y Hx Hy. apply (Hv (S i)); assumption. }
  destruct (Hv 0 u v eq_refl eq_refl) as [n2 H2].
  exists (Nat.max n1 n2). intros m Hm. simpl.
  rewrite H2 by lia. simpl. apply H1. lia.
Qed.

Lemma is_deep_equal_seq_items (rank : loc -> nat) :
  (forall l c, In c (children (h l)) -> rank c < rank l) ->
  (forall i x y, nth_error xs i = Some x -> nth_error ys i = Some y ->
                 deep_equal_returns h x y true) ->
  List.length xs = List.length ys ->
  deep_equal_returns h a b true.
Proof.
  intros Hrank Hv Hl.
  destruct (all_zip_eventually xs ys Hv) as [n Hn].
  exists (S (Nat.max n (S (rank a)))). intros [|m] Hm; [lia|].
  destruct (object_is h m a b) as [[|]|e|] eqn:Ho.
  - simpl. unfold is_deep_equal_step. now rewrite Ho.
  - rewrite (seq_pair_descent m Ho). apply Nat.eqb_eq in Hl. rewrite Hl.
    apply Hn. lia.
  - rewrite seq_pair_object_is in Ho.
    destruct (Nat.eqb a b); [discriminate|].
    now apply py_eq_no_raise in Ho.
  - exfalso. revert Ho. apply (object_is_total h rank Hrank). lia.
Qed.

Lemma is_deep_equal_seq_items_inv :
  deep_equal_returns h a b true ->
  (forall n, object_is h n a b <> Ret true) ->
  forall i x y, nth_error xs i = Some x -> nth_error ys i = Some y ->
                deep_equal_returns h x y true.
Proof.
  intros [n Hn] Hfast i x y Hx Hy. exists n. intros m Hm.
  assert (H : is_deep_equal h (S m) a b = Ret true) by (apply Hn; lia).
  destruct (object_is h m a b) as [[|]|e|] eqn:Ho.
  - now apply Hfast in Ho.
  - rewrite (seq_pair_descent m Ho) in H.
    destruct (Nat.eqb (List.length xs) (List.length ys)); [|discriminate].
    eapply all_zip_true; eauto.
  - simpl in H. unfold is_deep_equal_step in H. rewrite Ho in H.
    discriminate.
  - simpl in H. unfold is_deep_equal_step in H. rewrite Ho in H.
    discriminate.
Qed.

End Sequences.

Lemma zoo_acyclic : acyclic zoo.
Proof.
  exists zoo_rank. intros l c.
  do 23 (destruct l as [|l];
         [simpl; intuition (subst; simpl; lia)|]).
  simpl. tauto.
Qed.

(** Deep equality of two lists, or of two tuples: it holds only
    between equal lengths; sequences of different lengths compare
    [False]; sequences of one length are deep-equal when the items at
    every index are and, apart from the fast path of [object_is], only
    then. *)
Theorem sequence_deep_equality (h : heap) (a b : loc) (xs ys : list loc) :
  acyclic h -> seq_pair h a b xs ys ->
  (deep_equal_returns h a b true -> List.length xs = List.length ys) /\
  (List.length xs <> List.length ys -> deep_equal_returns h a b false) /\
  (List.length xs = List.length ys ->
   (forall i x y, nth_error xs i = Some x -> nth_error ys i = Some y ->
                  deep_equal_returns h x y true) ->
   deep_equal_returns h a b true) /\
  (deep_equal_returns h a b true ->
   (forall n, object_is h n a b <> Ret true) ->
   forall i x y, nth_error xs i = Some x -> nth_error ys i = Some y ->
                 deep_equal_returns h x y true).
Proof.
  intros [rank Hrank] Hseq. split; [|split; [|split]].
  - intros [n Hn]. eapply is_deep_equal_seq_length; eauto.
  - intros Hl. exists 2. intros [|[|m]] Hm; try lia.
    eapply is_deep_equal_seq_mismatch; eauto.
  - intros Hl Hv. eapply is_deep_equal_seq_items; eauto.
  - apply is_deep_equal_seq_items_inv; assumption.
Qed.

Lemma sequence_deep_equality_witness :
  deep_equal_returns zoo 8 9 false /\
  (deep_equal_returns zoo 6 7 true -> List.length [4] = List.length [5]).
Proof.
  destruct (sequence_deep_equality zoo 8 9 [1; 1] [1] zoo_acyclic)
    as (_ & H2 & _); [left; split; reflexivity|].
  destruct (sequence_deep_equality zoo 6 7 [4] [5] zoo_acyclic)
    as (H1 & _); [left; split; reflexivity|].
  split; [apply H2; simpl; lia | exact H1].
Defined.

(** ** Deep equality of instances *)

Lemma is_deep_equal_inst_step (h : heap) (n : nat) (a b : loc)
    (c1 c2 : string) (d1 d2 : loc) :
  h a = OInst c1 d1 -> h b = OInst c2 d2 -> a <> b ->
  is_deep_equal h (S (S n)) a b
  = if String.eqb c1 c2 then is_deep_equal h (S n) d1 d2 else Ret false.
Proof.
  intros Ha Hb Hab.
  assert (Hid : py_is h a b = false).
  { unfold py_is. rewrite Ha. simpl. rewrite orb_false_r.
    now apply Nat.eqb_neq. }
  assert (Ho : object_is h (S n) a b = Ret false).
  { unfold object_is. rewrite Hid, Ha. simpl. unfold py_eq_step.
    now rewrite Ha, Hb, Hid. }
  change (is_deep_equal h (S (S n)) a b)
    with (is_deep_equal_step h (S n) (is_deep_equal h (S n)) a b).
  unfold is_deep_equal_step. rewrite Ho, Ha, Hb. simpl.
  destruct (String.eqb c1 c2) eqn:Ec.
  - apply String.eqb_eq in Ec. subst c2.
    assert (Et : pytype_eqb (TInst c1) (TInst c1) = true)
      by now apply pytype_eqb_eq.
    now rewrite Et.
  - destruct (pytype_eqb (TInst c1) (TInst c2)) eqn:Et; [|reflexivity].
    apply pytype_eqb_eq in Et. injection Et as ->.
    now rewrite String.eqb_refl in Ec.
Qed.

(** Two distinct instances are deep-equal exactly when they are of one
    class and their attribute mappings are deep-equal; instances of
    different classes compare [False] whatever they hold. *)
Theorem instance_deep_equality (h : heap) (a b : loc) (c1 c2 : string)
    (d1 d2 : loc) :
  h a = OInst c1 d1 -> h b = OInst c2 d2 -> a <> b ->
  (deep_equal_returns h a b true
   <-> c1 = c2 /\ deep_equal_returns h d1 d2 true) /\
  (c1 <> c2 -> deep_equal_returns h a b false).
Proof.
  intros Ha Hb Hab.
  pose proof (fun n => is_deep_equal_inst_step h n a b c1 c2 d1 d2 Ha Hb Hab)
    as Hstep.
  split; [split|].
  - intros [n Hn].
    assert (Hc : c1 = c2).
    { specialize (Hn (S (S n)) ltac:(lia)). rewrite Hstep in Hn.
      destruct (String.eqb c1 c2) eqn:Ec; [|discriminate].
      now apply String.eqb_eq. }
    split; [exact Hc|].
    exists (Nat.max n 1). intros [|m] Hm; [lia|].
    specialize (Hn (S (S m)) ltac:(lia)). rewrite Hstep in Hn.
    apply String.eqb_eq in Hc. now rewrite Hc in Hn.
  - intros [-> [n Hn]]. exists (S (S n)). intros [|[|m]] Hm; try lia.
    rewrite Hstep, String.eqb_refl. apply Hn. lia.
  - intros Hc. exists 2. intros [|[|m]] Hm; try lia.
    rewrite Hstep. apply String.eqb_neq in Hc. now rewrite Hc.
Qed.

Lemma instance_deep_equality_witness :
  deep_equal_returns zoo 13 14 true /\ deep_equal_returns zoo 13 15 false.
Proof.
  destruct (instance_deep_equality zoo 13 14 "P" "P" 11 12 eq_refl eq_refl)
    as ([_ H1] & _); [discriminate|].
  destruct (instance_deep_equality zoo 13 15 "P" "Q" 11 11 eq_refl eq_refl)
    as (_ & H2); [discriminate|].
  split.
  - apply H1. split; [reflexivity|].
    exists 3. intros m Hm.
    rewrite (is_deep_equal_mono_le zoo 3 m 11 12 Hm);
      [reflexivity|discriminate].
  - apply H2. discriminate.
Defined.

(** ** The matcher on a property map *)

(** A property map accepts an error exactly when every key of the map
    is an attribute of the error whose value is deep-equal to the
    value in the map; the empty map accepts every error. *)
Theorem property_map_matches (h : heap) (fuel : nat) (err : exn)
    (items : list (string * loc)) (msg : message) (fn : string) :
  test_error h fuel err (EDict items) msg fn = Ret true <->
  forall k v, In (k, v) items ->
    exists a, lookup k (exn_attrs err) = Some a /\
              is_deep_equal h fuel a v = Ret true.
Proof.
  simpl. induction items as [|[k0 v0] items IH]; simpl.
  - split; [intros _ k v []|reflexivity].
  - destruct (lookup k0 (exn_attrs err)) as [a0|] eqn:Ea.
    + destruct (is_deep_equal h fuel a0 v0) as [[|]| |] eqn:Ed; simpl.
      * rewrite IH. split.
        -- intros H k v [[= <- <-]|Hin]; [eauto|auto].
        -- intros H k v Hin. apply H. now right.
      * split; [discriminate|]. intros H.
        destruct (H k0 v0 (or_introl eq_refl)) as (a & Ha & Hd). congruence.
      * split; [discriminate|]. intros H.
        destruct (H k0 v0 (or_introl eq_refl)) as (a & Ha & Hd). congruence.
      * split; [discriminate|]. intros H.
        destruct (H k0 v0 (or_introl eq_refl)) as (a & Ha & Hd). congruence.
    + split; [discriminate|]. intros H.
      destruct (H k0 v0 (or_introl eq_refl)) as (a & Ha & _). congruence.
Qed.

Lemma property_map_matches_witness :
  test_error zoo 2 coded_error (EDict [("code", 2)]) MNone "throws" = Ret true
  /\ test_error zoo 2 coded_error (EDict [("status", 1)]) MNone "throws"
     <> Ret true.
Proof.
  split.
  - apply (property_map_matches zoo 2 coded_error [("code", 2)] MNone "throws").
    intros k v [[= <- <-]|[]]. exists 1. split; reflexivity.
  - intros H.
    destruct (proj1 (property_map_matches zoo 2 coded_error [("status", 1)]
                       MNone "throws") H "status" 1 (or_introl eq_refl))
      as (a & Ha & _).
    discriminate.
Defined.

(** ** [stringify] and the message of [AssertError] *)

Lemma length_append (s t : string) :
  String.length (s ++ t) = String.length s + String.length t.
Proof. induction s as [|c s IH]; simpl; [reflexivity|now rewrite IH]. Qed.

Lemma length_substring_le (n : nat) (s : string) :
  String.length (substring 0 n s) <= n.
Proof.
  revert s. induction n as [|n IH]; intros [|c s]; simpl; try lia.
  specialize (IH s). lia.
Qed.

Lemma length_substring_long (n : nat) (s : string) :
  n <= String.length s -> String.length (substring 0 n s) = n.
Proof.
  revert s. induction n as [|n IH]; intros [|c s]; simpl; try lia.
  intros H. rewrite IH; lia.
Qed.

Lemma substring_whole (n : nat) (s : string) :
  String.length s <= n -> substring 0 n s = s.
Proof.
  revert s. induction n as [|n IH]; intros [|c s]; simpl; try lia;
    try reflexivity.
  intros H. rewrite IH; [reflexivity|lia].
Qed.

Lemma append_empty_r (s : string) : s ++ "" = s.
Proof. induction s as [|c s IH]; simpl; [reflexivity|now rewrite IH]. Qed.

Section RenderingFacts.

Variables (h h' : heap).
Variables (py_str py_repr py_str' py_repr' : loc -> string).
Variables (py_repr_str py_repr_str' : string -> string).

Lemma stringify_sized (v w : loc) (n : nat) :
  type_of (h v) = type_of (h' w) ->
  sized (h v) = Some n -> sized (h' w) = Some n ->
  stringify h py_str py_repr py_repr_str v
  = stringify h' py_str' py_repr' py_repr_str' w.
Proof.
  unfold stringify.
  destruct (h v), (h' w); simpl; try discriminate;
    intros _ [= <-] [= ->]; reflexivity.
Qed.

(** Of a collection or byte string [stringify] shows the type and the
    size and nothing of the contents: two values of one type and one
    size are rendered alike, in whatever store. *)
Theorem stringify_hides_contents (v w : loc) (n : nat) :
  type_of (h v) = type_of (h' w) ->
  sized (h v) = Some n -> sized (h' w) = Some n ->
  stringify h py_str py_repr py_repr_str v
  = stringify h' py_str' py_repr' py_repr_str' w.
Proof. apply stringify_sized. Qed.

(** Text goes to [repr] whole up to 80 characters, and cut to its first
    80 characters and an ellipsis beyond.  An instance without an
    attribute [__name__] is rendered by at most 83 characters of its
    [repr]; one that has the attribute is rendered as [function] and
    the whole of the name, however long.  [None] is rendered as
    [null]. *)
Theorem stringify_truncation (v : loc) :
  (forall s, h v = OStr s ->
     exists t,
       stringify h py_str py_repr py_repr_str v = py_repr_str t /\
       String.length t <= 83 /\
       (String.length s <= 80 -> t = s) /\
       (80 < String.length s ->
        t = substring 0 80 s ++ "..." /\ String.length t = 83)) /\
  (forall c d, h v = OInst c d ->
     lookup "__name__" (dict_entries (h d)) = None ->
     String.length (stringify h py_str py_repr py_repr_str v) <= 83 /\
     (String.length (py_repr v) <= 80 ->
      stringify h py_str py_repr py_repr_str v = py_repr v)) /\
  (forall c d name, h v = OInst c d ->
     lookup "__name__" (dict_entries (h d)) = Some name ->
     stringify h py_str py_repr py_repr_str v = "function " ++ py_str name /\
     String.length (stringify h py_str py_repr py_repr_str v)
     = 9 + String.length (py_str name)) /\
  (h v = ONone -> stringify h py_str py_repr py_repr_str v = "null").
Proof.
  unfold stringify. split; [|split; [|split]].
  - intros s ->. destruct (Nat.ltb 80 (String.length s)) eqn:E.
    + apply Nat.ltb_lt in E. eexists. split; [reflexivity|].
      assert (Hl : String.length (substring 0 80 s ++ "...") = 83).
      { rewrite length_append, length_substring_long by lia. reflexivity. }
      split; [lia|]. split; [lia|]. intros _. now split.
    + apply Nat.ltb_ge in E. exists s. split; [reflexivity|].
      split; [lia|]. split; [reflexivity|lia].
  - intros c d -> ->. split.
    + rewrite length_append.
      pose proof (length_substring_le 80 (py_repr v)).
      destruct (Nat.ltb 80 (String.length (py_repr v))); simpl; lia.
    + intros Hl. apply Nat.ltb_ge in Hl. rewrite Hl.
      rewrite substring_whole by now apply Nat.ltb_ge.
      apply append_empty_r.
  - intros c d name -> ->. split; [reflexivity|].
    now rewrite length_append.
  - now intros ->.
Qed.

(** The message [AssertError] makes up for a comparison of two
    collections is fixed by their types and sizes and the operator. *)
Theorem AssertError_message_hides_contents (actual expected actual'
    expected' : loc) (m n : nat) (operator : string) (g g' : bool) :
  type_of (h actual) = type_of (h' actual') ->
  sized (h actual) = Some m -> sized (h' actual') = Some m ->
  type_of (h expected) = type_of (h' expected') ->
  sized (h expected) = Some n -> sized (h' expected') = Some n ->
  ae_message (AssertError_init h py_str py_repr py_repr_str None actual
                expected operator g)
  = ae_message (AssertError_init h' py_str' py_repr' py_repr_str' None
                  actual' expected' operator g').
Proof.
  intros Ta Sa Sa' Te Se Se'. unfold AssertError_init. simpl.
  destruct (String.eqb operator "fail"); [reflexivity|].
  now rewrite (stringify_sized actual actual' m Ta Sa Sa'),
    (stringify_sized expected expected' n Te Se Se').
Qed.

End RenderingFacts.

(** [[0.0]] of one store and [[1]] of the other are both rendered
    as the text for a list of one item. *)
Lemma stringify_hides_contents_witness :
  stringify zoo (fun _ => "a") (fun _ => "b") (fun s => s) 6
  = stringify zoo (fun _ => "c") (fun _ => "d") (fun s => s) 9.
Proof.
  apply (stringify_hides_contents zoo zoo _ _ _ _ _ _ 6 9 1); reflexivity.
Defined.

Lemma AssertError_message_hides_contents_witness :
  ae_message (AssertError_init zoo (fun _ => "a") (fun _ => "b")
                (fun s => s) None 6 11 "deepStrictEqual" false)
  = ae_message (AssertError_init zoo (fun _ => "c") (fun _ => "d")
                  (fun s => s) None 9 12 "deepStrictEqual" false).
Proof.
  apply (AssertError_message_hides_contents zoo zoo _ _ _ _ _ _
           6 11 9 12 1 1 "deepStrictEqual" false false); reflexivity.
Defined.

(** ** The parameter checks *)

(** [enforce] and [range_] return normally exactly on a truthy value.
    On a falsy one [enforce] raises a [TypeError] and [range_] a
    [ValueError], never an assertion error.  [enforce] leaves the type
    name out of account when it is given no parameter name, and
    [range_] takes an empty name for no name where [enforce] puts it
    between quotes. *)
Theorem parameter_checks (h : heap) (value : loc) (name type_name : option string) :
  (enforce h value name type_name = Ret tt <-> truthy (h value) = true) /\
  (range_ h value name = Ret tt <-> truthy (h value) = true) /\
  (truthy (h value) = false ->
   (exists m, enforce h value name type_name = Raise (type_error m)) /\
   (exists m, range_ h value name = Raise (value_error m))) /\
  enforce h value None type_name = enforce h value None None /\
  range_ h value (Some "") = range_ h value None /\
  (truthy (h value) = false ->
   enforce h value (Some "") None
   = Raise (type_error (quoted "" ++ " is invalid."))).
Proof.
  unfold enforce, range_.
  destruct (truthy (h value)); simpl; repeat split;
    try discriminate; try reflexivity; intros; eexists; reflexivity.
Qed.

Lemma parameter_checks_witness :
  (exists m, enforce sample 0 (Some "size") (Some "number")
             = Raise (type_error m)) /\
  (exists m, range_ sample 0 (Some "size") = Raise (value_error m)).
Proof.
  destruct (parameter_checks sample 0 (Some "size") (Some "number"))
    as (_ & _ & H & _).
  apply H. reflexivity.
Defined.

(** ** Symmetry of the answer [True] *)

Lemma SFeqb_true_sym (f g : spec_float) : SFeqb f g = true -> SFeqb g f = true.
Proof.
  unfold SFeqb.
  destruct f as [s| s| |s m e], g as [t| t| |t m' e']; simpl;
    try discriminate; try reflexivity;
    try (destruct s; discriminate); try (destruct t; discriminate).
  - destruct s, t; try discriminate; reflexivity.
  - destruct s, t; try discriminate.
    + destruct (Z.compare e e') eqn:Ee; try discriminate.
      apply Z.compare_eq in Ee. subst e'. rewrite Z.compare_refl.
      destruct (Pos.compare_cont Eq m m') eqn:Em; try discriminate.
      apply Pos.compare_eq in Em. subst m'. intros _.
      now rewrite Pos.compare_cont_refl.
    + destruct (Z.compare e e') eqn:Ee; try discriminate.
      apply Z.compare_eq in Ee. subst e'. rewrite Z.compare_refl.
      destruct (Pos.compare_cont Eq m m') eqn:Em; try discriminate.
      apply Pos.compare_eq in Em. subst m'. intros _.
      now rewrite Pos.compare_cont_refl.
Qed.

Lemma SFeqb_sym (f g : spec_float) : SFeqb f g = SFeqb g f.
Proof.
  destruct (SFeqb f g) eqn:E1, (SFeqb g f) eqn:E2; trivial.
  - apply SFeqb_true_sym in E1. congruence.
  - apply SFeqb_true_sym in E2. congruence.
Qed.

Lemma num_eqb_sym (x y : num) : num_eqb x y = num_eqb y x.
Proof.
  destruct x, y; simpl; trivial; [apply Z.eqb_sym | apply SFeqb_sym].
Qed.

Lemma bytes_eqb_sym (s t : list Byte.byte) : bytes_eqb s t = bytes_eqb t s.
Proof.
  unfold bytes_eqb.
  destruct (list_eq_dec Byte.byte_eq_dec s t),
           (list_eq_dec Byte.byte_eq_dec t s); congruence.
Qed.

Lemma py_is_sym (h : heap) (a b : loc) : py_is h a b = py_is h b a.
Proof.
  unfold py_is. rewrite Nat.eqb_sym. f_equal.
  destruct (h a) as [|[|]| | | | | | | | |], (h b) as [|[|]| | | | | | | | |];
    reflexivity.
Qed.

Lemma lookup_nodup (k : string) (v : loc) (kvs : list (string * loc)) :
  NoDup (keys kvs) -> In (k, v) kvs -> lookup k kvs = Some v.
Proof.
  induction kvs as [|[k0 v0] kvs IH]; simpl; [tauto|].
  intros Hnd [[= -> ->]|Hin].
  - now rewrite String.eqb_refl.
  - inversion Hnd as [|? ? Hnotin Hnd']. subst.
    destruct (String.eqb k k0) eqn:E; [|auto].
    apply String.eqb_eq in E. subst k0. exfalso. apply Hnotin.
    unfold keys. now apply (in_map fst) in Hin.
Qed.

Section Symmetry.

Variable h : heap.
Hypothesis wf : dicts_wf h.
Hypothesis sets_absent : no_sets h.

Lemma all_zip_flip (f g : loc -> loc -> outcome bool) :
  (forall x y, f x y = Ret true -> g y x = Ret true \/ g y x = OutOfFuel) ->
  forall xs ys,
    all_zip f xs ys = Ret true ->
    all_zip g ys xs = Ret true \/ all_zip g ys xs = OutOfFuel.
Proof.
  intros Hfg. induction xs as [|x xs IH]; intros [|y ys] H; simpl;
    try (now left).
  simpl in H. apply bind_ret in H as (r & Hr & H).
  destruct r; [|discriminate].
  destruct (Hfg x y Hr) as [-> | ->]; simpl; [now apply IH|now right].
Qed.

Lemma dict_entries_eq_flip (f g : loc -> loc -> outcome bool)
    (ka kb : list (string * loc)) :
  (forall x y, f x y = Ret true -> g y x = Ret true \/ g y x = OutOfFuel) ->
  NoDup (keys kb) -> same_keys ka kb ->
  dict_entries_eq f ka kb = Ret true ->
  forall sub, incl sub kb ->
    dict_entries_eq g sub ka = Ret true \/
    dict_entries_eq g sub ka = OutOfFuel.
Proof.
  intros Hfg Hnd Hk H.
  induction sub as [|[k w] sub IH]; intros Hsub; simpl; [now left|].
  assert (Hin : In (k, w) kb) by (apply Hsub; now left).
  assert (Hka : In k (keys ka)).
  { apply Hk. unfold keys. now apply (in_map fst) in Hin. }
  destruct (in_keys_lookup _ _ Hka) as [v Hv]. rewrite Hv.
  destruct (dict_entries_eq_true _ _ _ H k v (lookup_some_in _ _ _ Hv))
    as (w' & Hw' & Hvw).
  rewrite (lookup_nodup k w kb Hnd Hin) in Hw'. injection Hw' as <-.
  destruct (Hfg v w Hvw) as [-> | ->]; simpl; [|now right].
  apply IH. intros p Hp. apply Hsub. now right.
Qed.

Lemma all_keys_flip (f g : loc -> loc -> outcome bool)
    (ka kb : list (string * loc)) :
  (forall x y, f x y = Ret true -> g y x = Ret true \/ g y x = OutOfFuel) ->
  same_keys ka kb ->
  all_keys f ka kb (keys ka) = Ret true ->
  forall ks, incl ks (keys kb) ->
    all_keys g kb ka ks = Ret true \/ all_keys g kb ka ks = OutOfFuel.
Proof.
  intros Hfg Hk H.
  induction ks as [|k ks IH]; intros Hsub; simpl; [now left|].
  assert (Hka : In k (keys ka)) by (apply Hk, Hsub; now left).
  destruct (all_keys_true _ _ _ _ H k Hka) as (x & y & Hx & Hy & Hxy).
  unfold getitem. rewrite Hy, Hx. simpl.
  destruct (Hfg x y Hxy) as [-> | ->]; simpl; [|now right].
  apply IH. intros p Hp. apply Hsub. now right.
Qed.

Lemma item_of_flip (f g : loc -> loc -> outcome bool) :
  (forall x y, f x y = Ret true -> g y x = Ret true \/ g y x = OutOfFuel) ->
  forall x y, item_of h f x y = Ret true ->
              item_of h g y x = Ret true \/ item_of h g y x = OutOfFuel.
Proof.
  intros Hfg x y. unfold item_of. rewrite (py_is_sym h y x).
  destruct (py_is h x y); [now left|auto].
Qed.

Lemma dict_entries_eq_keys (f : loc -> loc -> outcome bool)
    (ka kb : list (string * loc)) :
  NoDup (keys ka) -> List.length ka = List.length kb ->
  dict_entries_eq f ka kb = Ret true -> same_keys ka kb.
Proof.
  intros Hnd Hl H.
  assert (Hincl : incl (keys ka) (keys kb)).
  { intros k Hk. unfold keys in Hk.
    apply in_map_iff in Hk as ([k' v] & <- & Hin).
    destruct (dict_entries_eq_true _ _ _ H _ _ Hin) as (w & Hw & _).
    eapply lookup_in_keys; eauto. }
  intros k. split; [apply Hincl|].
  apply (NoDup_length_incl Hnd); [|exact Hincl].
  unfold keys. rewrite !length_map. lia.
Qed.

Lemma py_eq_step_flip (f g : loc -> loc -> outcome bool) (a b : loc) :
  (forall x y, f x y = Ret true -> g y x = Ret true \/ g y x = OutOfFuel) ->
  py_eq_step h f a b = Ret true ->
  py_eq_step h g b a = Ret true \/ py_eq_step h g b a = OutOfFuel.
Proof.
  intros Hfg. pose proof (item_of_flip f g Hfg) as Hi.
  unfold py_eq_step. rewrite (py_is_sym h b a).
  destruct (h a) as [|p|z|u|s|bs|xs|xs|ka|xs|c d] eqn:Ea,
           (h b) as [|q|w|v|t|bt|ys|ys|kb|ys|c' d'] eqn:Eb;
    cbn -[num_eqb]; try discriminate; try (now left);
    try (rewrite num_eqb_sym; intros ->; now left);
    try (rewrite Nat.eqb_sym;
         destruct (Nat.eqb (List.length ys) (List.length xs));
         [|discriminate]; now apply all_zip_flip).
  - rewrite String.eqb_sym. intros ->. now left.
  - rewrite bytes_eqb_sym. intros ->. now left.
  - rewrite Nat.eqb_sym.
    destruct (Nat.eqb (List.length kb) (List.length ka)) eqn:El;
      [|discriminate].
    apply Nat.eqb_eq in El. intros H.
    assert (Hk : same_keys ka kb).
    { eapply dict_entries_eq_keys; eauto. }
    exact (dict_entries_eq_flip (item_of h f) (item_of h g) ka kb Hi
             (wf b kb Eb) Hk H kb (incl_refl kb)).
  - now apply sets_absent in Ea.
Qed.

Lemma py_eq_flip (n : nat) :
  forall a b, py_eq h n a b = Ret true ->
  forall m, py_eq h m b a = Ret true \/ py_eq h m b a = OutOfFuel.
Proof.
  induction n as [|n IH]; intros a b H [|m]; try discriminate;
    try (now right).
  simpl in *. revert H. apply py_eq_step_flip.
  intros x y Hxy. now apply IH.
Qed.

Lemma object_is_flip (n m : nat) (a b : loc) :
  object_is h n a b = Ret true ->
  object_is h m b a = Ret true \/ object_is h m b a = OutOfFuel.
Proof.
  intros H. pose proof H as Hinv.
  apply object_is_true_inv in Hinv as [Hid|[[Ha Hb]|Heq]].
  - unfold object_is. rewrite py_is_sym, Hid. now left.
  - unfold object_is. rewrite Ha, Hb. simpl.
    destruct (py_is h b a); now left.
  - unfold object_is in *. rewrite (py_is_sym h b a).
    destruct (py_is h a b); [now left|].
    replace (is_float (h b) && is_float (h a) && float_isnan (h b)
             && float_isnan (h a))
      with (is_float (h a) && is_float (h b) && float_isnan (h a)
            && float_isnan (h b))
      by (destruct (is_float (h a)), (is_float (h b)),
            (float_isnan (h a)), (float_isnan (h b)); reflexivity).
    destruct (is_float (h a) && is_float (h b) && float_isnan (h a)
              && float_isnan (h b)); [now left|].
    rewrite (andb_comm (eq_int_literal (h b) 0)).
    destruct (eq_int_literal (h a) 0) eqn:Za; simpl in *;
      [|now apply py_eq_flip with (n := n)].
    destruct (eq_int_literal (h b) 0);
      [|now apply py_eq_flip with (n := n)].
    destruct (one_over_zero _ Za) as [msg Hm]. rewrite Hm in H.
    discriminate.
Qed.

Lemma object_is_non_number (n : nat) (a b : loc) :
  to_num (h a) = None ->
  object_is h n a b = if py_is h a b then Ret true else py_eq h n a b.
Proof.
  intros Hnum. unfold object_is, eq_int_literal. rewrite Hnum.
  destruct (py_is h a b); [reflexivity|].
  assert (Hf : is_float (h a) = false).
  { destruct (h a); try reflexivity; discriminate. }
  now rewrite Hf.
Qed.

Lemma is_deep_equal_step_flip (n m : nat) (f g : loc -> loc -> outcome bool)
    (a b : loc) :
  (forall x y, f x y = Ret true -> g y x = Ret true \/ g y x = OutOfFuel) ->
  is_deep_equal_step h n f a b = Ret true ->
  is_deep_equal_step h m g b a = Ret true \/
  is_deep_equal_step h m g b a = OutOfFuel.
Proof.
  intros Hfg H. unfold is_deep_equal_step in H.
  apply bind_ret in H as (same & Hsame & H).
  destruct same.
  { unfold is_deep_equal_step.
    destruct (object_is_flip n m a b Hsame) as [-> | ->];
      [now left|now right]. }
  destruct (pytype_eqb (type_of (h a)) (type_of (h b))) eqn:Et;
    simpl in H; [|discriminate].
  apply pytype_eqb_eq in Et.
  apply object_is_false_eq in Hsame.
  assert (Hnum : to_num (h b) = None).
  { destruct (h a), (h b); simpl in Et; try discriminate;
      try reflexivity; congruence. }
  unfold is_deep_equal_step. rewrite (object_is_non_number m b a Hnum).
  destruct (py_is h b a); [now left|].
  destruct (py_eq h m b a) as [[|]|e|] eqn:He; simpl;
    [now left | | now apply py_eq_no_raise in He | now right].
  assert (Et' : pytype_eqb (type_of (h b)) (type_of (h a)) = true)
    by now apply pytype_eqb_eq.
  rewrite Et'. simpl.
  destruct (h a) as [| | | | | |xs|xs|ka|xs|c da] eqn:Ea,
           (h b) as [| | | | | |ys|ys|kb|ys|c' db] eqn:Eb;
    simpl in Et, Hnum; try discriminate; try congruence; simpl in H |- *.
  - rewrite (Nat.eqb_sym (List.length ys) (List.length xs)).
    destruct (Nat.eqb (List.length xs) (List.length ys)); simpl in *;
      [|discriminate].
    revert H. now apply all_zip_flip.
  - rewrite (Nat.eqb_sym (List.length ys) (List.length xs)).
    destruct (Nat.eqb (List.length xs) (List.length ys)); simpl in *;
      [|discriminate].
    revert H. now apply all_zip_flip.
  - destruct (same_key_set ka kb) eqn:Hk; simpl in H; [|discriminate].
    apply same_key_set_spec in Hk.
    assert (Hk' : same_key_set kb ka = true).
    { apply same_key_set_spec. intros k. symmetry. apply Hk. }
    rewrite Hk'. simpl.
    apply (all_keys_flip f g ka kb Hfg Hk H). apply incl_refl.
  - now apply Hfg.
Qed.

Lemma is_deep_equal_flip (n : nat) :
  forall a b, is_deep_equal h n a b = Ret true ->
  forall m, is_deep_equal h m b a = Ret true \/
            is_deep_equal h m b a = OutOfFuel.
Proof.
  induction n as [|n IH]; intros a b H [|m]; try discriminate;
    try (now right).
  simpl in *. revert H. apply is_deep_equal_step_flip.
  intros x y Hxy. now apply IH.
Qed.

End Symmetry.

(** On an acyclic store without sets, whose mappings hold each key
    once, the answer [True] of [is_deep_equal] is symmetric. *)
Theorem deep_equality_is_symmetric (h : heap) (a b : loc) :
  acyclic h -> dicts_wf h -> no_sets h ->
  deep_equal_returns h a b true -> deep_equal_returns h b a true.
Proof.
  intros Hacyc Hwf Hsets [n Hn].
  destruct (is_deep_equal_terminates h b a Hacyc) as (k & r & Hk & Hr).
  exists k. intros m Hm. rewrite (Hk m Hm).
  destruct (is_deep_equal_flip h Hwf Hsets n a b (Hn n (le_n n)) k)
    as [H|H]; rewrite (Hk k (le_n k)) in H; [exact H|].
  subst r. destruct Hr as [Hr|[Hr|[msg Hr]]]; discriminate.
Qed.

Lemma sample_no_sets : no_sets sample.
Proof.
  intros l xs.
  do 18 (destruct l as [|l]; [discriminate|]).
  discriminate.
Qed.

Lemma deep_equality_is_symmetric_witness : deep_equal_returns sample 8 7 true.
Proof.
  apply (deep_equality_is_symmetric sample 7 8 sample_acyclic
           sample_dicts_wf sample_no_sets).
  exists 3. intros m Hm.
  rewrite (is_deep_equal_mono_le sample 3 m 7 8 Hm);
    [reflexivity|discriminate].
Defined.

(** The other answers are not symmetric: [{x: 0.0, y: 1}] against
    [{y: [1, 1], x: -0.0}] raises, since the pair under [x] comes
    first, and the other way round the pair under [y] comes first and
    the answer is [False]. *)
Lemma failure_is_not_symmetric :
  forall n,
    is_deep_equal zoo (4 + n) 21 22
    = Raise (zero_division "float division by zero") /\
    is_deep_equal zoo (4 + n) 22 21 = Ret false.
Proof. intros n. split; reflexivity. Qed.

(** ** Where every error of the module comes from *)


Lemma strict_assertions_are_stronger_witness :
  deep_equal zoo 2 1 2 MNone = Ret tt /\
  not_equal zoo 1 9 10 MNone = Ret tt.
Proof.
  split.
  - apply (proj1 (strict_assertions_are_stronger zoo 1 1 2 MNone MNone)).
    reflexivity.
  - apply (proj2 (strict_assertions_are_stronger zoo 1 9 10 MNone MNone)).
    reflexivity.
Defined.
